(** * detect_shiftjis.py: Shift_JIS detection and backed-up conversion to UTF-8

    A shallow embedding of [src/detect_shiftjis.py] and the properties of
    its classification policy ([analyze_file]), of its conversion
    procedure ([backup_and_convert_to_utf8]) and of the conversion gate of
    [main].

    Conventions.
    - A Python [bytes] value is a [list byte]; a Python [str] holding
      decoded text is a list of Unicode code points ([text]); file names,
      labels and messages are [string]s.
    - A Python call that raises is a function into [option] or into a sum
      whose left injection carries the text of the exception.
    - The file system is a finite map from files to their contents.  A
      path names a file through the resolution of the operating system
      ([resolve]): two spellings of a path, or two links, may name one
      file.  The faults of the individual I/O calls are supplied by the
      environment.
    - [float] is the IEEE 754 binary64 type of Python's [float]. *)

From Stdlib Require Import ZArith Bool List Ascii String Strings.Byte Lia PrimFloat.
From stdpp Require Import base option list strings gmap.

Local Open Scope Z_scope.

(** ** Bytes and text *)

Abbreviation bytes := (list byte).
Abbreviation text := (list Z).

Definition byte_val (b : byte) : Z := Z.of_N (Byte.to_N b).

Definition byte_of_Z (z : Z) : byte :=
  match Byte.of_N (Z.to_N (z mod 256)) with
  | Some b => b
  | None => Byte.x00
  end.

(** A buffer of bytes below 0x80, the ASCII range. *)
Definition ascii_bytes (data : bytes) : Prop :=
  Forall (fun b => byte_val b < 0x80) data.

(** A Unicode scalar value: a code point that is no surrogate. *)
Definition scalar_value (u : Z) : Prop :=
  0 <= u <= 0x10FFFF /\ ~ (0xD800 <= u <= 0xDFFF).

(** A mapping table all of whose entries are scalar values. *)
Definition table_valid (table : Z -> Z -> option Z) : Prop :=
  forall r k u, table r k = Some u -> scalar_value u.

(** [str.encode('utf-8')]: raises [UnicodeEncodeError] on a surrogate; a
    value outside the code space is not a character of any Python string. *)
Definition utf8_encode_char (u : Z) : option bytes :=
  if u <? 0 then None
  else if u <? 0x80 then Some [byte_of_Z u]
  else if u <? 0x800 then
    Some [byte_of_Z (Z.lor 0xC0 (Z.shiftr u 6));
          byte_of_Z (Z.lor 0x80 (Z.land u 0x3F))]
  else if (0xD800 <=? u) && (u <=? 0xDFFF) then None
  else if u <? 0x10000 then
    Some [byte_of_Z (Z.lor 0xE0 (Z.shiftr u 12));
          byte_of_Z (Z.lor 0x80 (Z.land (Z.shiftr u 6) 0x3F));
          byte_of_Z (Z.lor 0x80 (Z.land u 0x3F))]
  else if u <=? 0x10FFFF then
    Some [byte_of_Z (Z.lor 0xF0 (Z.shiftr u 18));
          byte_of_Z (Z.lor 0x80 (Z.land (Z.shiftr u 12) 0x3F));
          byte_of_Z (Z.lor 0x80 (Z.land (Z.shiftr u 6) 0x3F));
          byte_of_Z (Z.lor 0x80 (Z.land u 0x3F))]
  else None.

Fixpoint utf8_encode (t : text) : option bytes :=
  match t with
  | [] => Some []
  | u :: t' =>
      match utf8_encode_char u, utf8_encode t' with
      | Some b, Some bs => Some (b ++ bs)
      | _, _ => None
      end
  end.

(** ** Python string operations used by the program *)

Module PyStr.

(** Truth value of a string: the empty string is false. *)
Definition truthy (s : string) : bool := negb (String.eqb s "").

(** Truth value of an [Optional[str]]: [None] and the empty string are false. *)
Definition truthy_opt (o : option string) : bool :=
  match o with
  | Some s => truthy s
  | None => false
  end.

Definition lower_ascii (c : ascii) : ascii :=
  let n := nat_of_ascii c in
  if ((65 <=? n) && (n <=? 90))%nat then ascii_of_nat (n + 32) else c.

(** [s.lower()] on the ASCII letters; charset labels are ASCII, and other
    characters are left as they are. *)
Fixpoint lower (s : string) : string :=
  match s with
  | EmptyString => EmptyString
  | String c s' => String (lower_ascii c) (lower s')
  end.

(** [s.replace(c, '')] for a one-character [c]. *)
Fixpoint remove_char (c : ascii) (s : string) : string :=
  match s with
  | EmptyString => EmptyString
  | String d s' =>
      if Ascii.eqb d c then remove_char c s' else String d (remove_char c s')
  end.

(** [needle in hay]. *)
Fixpoint contains (needle hay : string) : bool :=
  String.prefix needle hay ||
  match hay with
  | EmptyString => false
  | String _ hay' => contains needle hay'
  end.

(** [x in xs] for a tuple or list of strings. *)
Fixpoint mem (x : string) (xs : list string) : bool :=
  match xs with
  | [] => false
  | y :: ys => String.eqb x y || mem x ys
  end.

(** [s.endswith(suffix)]. *)
Definition endswith (s suffix : string) : bool :=
  String.prefix (String.rev suffix) (String.rev s).

(** [s.split(sep)] for a one-character separator. *)
Fixpoint split (sep : ascii) (s : string) : list string :=
  match s with
  | EmptyString => [EmptyString]
  | String c s' =>
      if Ascii.eqb c sep then EmptyString :: split sep s'
      else match split sep s' with
           | h :: t => String c h :: t
           | [] => [String c EmptyString]
           end
  end.

(** [sep.join(parts)]. *)
Fixpoint join (sep : string) (parts : list string) : string :=
  match parts with
  | [] => EmptyString
  | [p] => p
  | p :: ps => p +:+ sep +:+ join sep ps
  end.

(** [s.lstrip(c)] and [s.rstrip(c)] for a one-character [c]. *)
Fixpoint lstrip (c : ascii) (s : string) : string :=
  match s with
  | EmptyString => EmptyString
  | String d s' => if Ascii.eqb d c then lstrip c s' else s
  end.

Definition rstrip (c : ascii) (s : string) : string :=
  String.rev (lstrip c (String.rev s)).

End PyStr.

(** ** The CJK codecs behind [bytes.decode]

    [data.decode('shift_jis')] and [data.decode('cp932')] run CPython's
    multibyte codec driver over the decoders of [_codecs_jp].  The decoders
    are modelled one character at a time: from the byte at the cursor and,
    when there is one, the byte after it, a decoder either writes a code
    point and advances by one or two bytes, reports an illegal sequence
    (the C code returns 1), or reports that the buffer ends inside a
    character ([MBERR_TOOFEW]).  The JIS X 0208 mapping and the CP932
    extension mapping are the tables of the C library, taken as
    parameters. *)

Module Codec.

Inductive errors := Strict | Replace.

Inductive dec_step :=
| Emit1 (cp : Z)
| Emit2 (cp : Z)
| Illegal
| TooFew.

Definition REPLACEMENT_CHARACTER : Z := 0xFFFD.

Definition is_lead (c : Z) : bool :=
  ((0x81 <=? c) && (c <=? 0x9f)) || ((0xe0 <=? c) && (c <=? 0xea)).

Definition bad_trail (c2 : Z) : bool :=
  (c2 <? 0x40) || ((0x7e <? c2) && (c2 <? 0x80)) || (0xfc <? c2).

(** Shift_JIS lead and trail bytes to a JIS X 0208 row and cell. *)
Definition jis_row (c c2 : Z) : Z :=
  let c1 := if c <? 0xe0 then c - 0x81 else c - 0xc1 in
  let d2 := if c2 <? 0x80 then c2 - 0x40 else c2 - 0x41 in
  2 * c1 + (if d2 <? 0x5e then 0 else 1) + 0x21.

Definition jis_cell (c2 : Z) : Z :=
  let d2 := if c2 <? 0x80 then c2 - 0x40 else c2 - 0x41 in
  (if d2 <? 0x5e then d2 else d2 - 0x5e) + 0x21.

Section Tables.

Variable jisx0208 : Z -> Z -> option Z.
Variable cp932ext : Z -> Z -> option Z.

Definition shift_jis_step (c : Z) (next : option Z) : dec_step :=
  if c <? 0x80 then Emit1 c
  else if (0xa1 <=? c) && (c <=? 0xdf) then Emit1 (0xfec0 + c)
  else if is_lead c then
    match next with
    | None => TooFew
    | Some c2 =>
        if bad_trail c2 then Illegal
        else
          let r := jis_row c c2 in
          let k := jis_cell c2 in
          if (r =? 0x21) && (k =? 0x40) then Emit2 0xff3c
          else match jisx0208 r k with
               | Some u => Emit2 u
               | None => Illegal
               end
    end
  else Illegal.

Definition cp932_step (c : Z) (next : option Z) : dec_step :=
  if c <=? 0x80 then Emit1 c
  else if (0xa0 <=? c) && (c <=? 0xdf) then
    Emit1 (if c =? 0xa0 then 0xf8f0 else 0xfec0 + c)
  else if 0xfd <=? c then Emit1 (0xf8f1 - 0xfd + c)
  else
    match next with
    | None => TooFew
    | Some c2 =>
        match cp932ext c c2 with
        | Some u => Emit2 u
        | None =>
            if is_lead c then
              if bad_trail c2 then Illegal
              else match jisx0208 (jis_row c c2) (jis_cell c2) with
                   | Some u => Emit2 u
                   | None => Illegal
                   end
            else if (0xf0 <=? c) && (c <=? 0xf9) then
              if ((0x40 <=? c2) && (c2 <=? 0x7e)) || ((0x80 <=? c2) && (c2 <=? 0xfc))
              then Emit2 (0xe000 + 188 * (c - 0xf0)
                          + (if c2 <? 0x80 then c2 - 0x40 else c2 - 0x41))
              else Illegal
            else Illegal
        end
    end.

End Tables.

(** The driver of [multibytecodec.c].  On an illegal sequence of length one
    the error handler either raises (strict) or writes U+FFFD and skips
    that byte (replace); on a truncated character it raises or writes
    U+FFFD and skips what is left of the buffer.  A decoder that claims two
    bytes where one is left would be an internal codec error, which raises
    whatever the handler. *)
Fixpoint mbc_decode (step : Z -> option Z -> dec_step) (e : errors)
    (inp : bytes) {struct inp} : option text :=
  match inp with
  | [] => Some []
  | b :: rest =>
      match step (byte_val b) (byte_val <$> head rest) with
      | Emit1 u => cons u <$> mbc_decode step e rest
      | Emit2 u =>
          match rest with
          | _ :: rest' => cons u <$> mbc_decode step e rest'
          | [] => None
          end
      | Illegal =>
          match e with
          | Strict => None
          | Replace => cons REPLACEMENT_CHARACTER <$> mbc_decode step e rest
          end
      | TooFew =>
          match e with
          | Strict => None
          | Replace => Some [REPLACEMENT_CHARACTER]
          end
      end
  end.

(** A decoder is well behaved when it asks for a second byte only where
    there is one. *)
Definition step_sound (step : Z -> option Z -> dec_step) : Prop :=
  forall c u, step c None <> Emit2 u.

End Codec.

(** The code points a decoder writes for bytes are scalar values. *)
Definition step_scalar (step : Z -> option Z -> Codec.dec_step) : Prop :=
  forall c next u,
    0 <= c < 256 ->
    step c next = Codec.Emit1 u \/ step c next = Codec.Emit2 u ->
    scalar_value u.

(** ** The names of files

    [open(path, ...)] resolves [path] to a file.  [resolve path] stands
    for the file that [path] names (its canonical name, or any other
    identity of the file): paths with the same [resolve] are one file,
    whichever way they are spelled or linked. *)

Class FileNames := {
  resolve : string -> string
}.

(** ** [os.path]

    The path functions the program calls belong to the platform.  They are
    an interface here; [Posix.os_path] below is the [posixpath] module. *)

Class OsPath := {
  path_join : string -> string -> string;
  (** [None]: the call raises (an empty path, an unavailable working
      directory, paths on different drives). *)
  path_relpath : string -> string -> option string;
  path_basename : string -> string;
  path_dirname : string -> string
}.

Module Posix.

Import PyStr.

Definition sep : ascii := "/"%char.

Definition isabs (p : string) : bool := String.prefix "/" p.

Definition join (a b : string) : string :=
  if String.prefix "/" b then b
  else if negb (truthy a) || endswith a "/" then a +:+ b
  else a +:+ "/" +:+ b.

Definition basename (p : string) : string :=
  List.last (split sep p) EmptyString.

Definition dirname (p : string) : string :=
  let comps := split sep p in
  match comps with
  | [] | [_] => EmptyString
  | _ =>
      let head := PyStr.join "/" (removelast comps) +:+ "/" in
      if truthy (lstrip sep head) then rstrip sep head else head
  end.

(** One turn of the loop of [normpath] over the components. *)
Definition normpath_step (initial_slashes : nat) (new_comps : list string)
    (comp : string) : list string :=
  if String.eqb comp "" || String.eqb comp "." then new_comps
  else if negb (String.eqb comp "..")
          || (Nat.eqb initial_slashes 0 && Nat.eqb (List.length new_comps) 0)
          || (negb (Nat.eqb (List.length new_comps) 0)
              && String.eqb (List.last new_comps EmptyString) "..")
  then new_comps ++ [comp]
  else removelast new_comps.

Definition normpath (path : string) : string :=
  if negb (truthy path) then "."
  else
    let initial_slashes :=
      if String.prefix "/" path then
        if String.prefix "//" path && negb (String.prefix "///" path)
        then 2%nat else 1%nat
      else 0%nat in
    let comps := fold_left (normpath_step initial_slashes) (split sep path) [] in
    let p := PyStr.join "/" comps in
    let p := PyStr.join "" (repeat "/" initial_slashes) +:+ p in
    if truthy p then p else ".".

Section Cwd.

(** [os.getcwd()]; [None] when the call raises. *)
Variable cwd : option string.

Definition abspath (path : string) : option string :=
  if isabs path then Some (normpath path)
  else match cwd with
       | Some d => Some (normpath (join d path))
       | None => None
       end.

Fixpoint commonprefix_len (a b : list string) : nat :=
  match a, b with
  | x :: a', y :: b' => if String.eqb x y then S (commonprefix_len a' b') else 0
  | _, _ => 0
  end.

Definition relpath (path start : string) : option string :=
  if negb (truthy path) then None
  else
    match abspath start, abspath path with
    | Some s, Some p =>
        let start_list := List.filter truthy (split sep s) in
        let path_list := List.filter truthy (split sep p) in
        let i := commonprefix_len start_list path_list in
        let rel_list := repeat ".." (List.length start_list - i) ++ drop i path_list in
        match rel_list with
        | [] => Some "."
        | _ => Some (PyStr.join "/" rel_list)
        end
    | _, _ => None
    end.

Definition os_path : OsPath := {|
  path_join := join;
  path_relpath := relpath;
  path_basename := basename;
  path_dirname := dirname
|}.

End Cwd.

(** The file a path names in a tree without links, seen from the working
    directory [dir]: its normalised absolute path. *)
Definition names (dir : string) : FileNames := {|
  resolve path := normpath (join dir path)
|}.

End Posix.

(** ** The file system

    Files are held by the name [resolve] gives them.  [open(path, 'rb')]
    followed by [read()]
    returns the bytes of the file or raises; [open(path, 'wb')] followed by
    [write(data)] may raise at the [open], which leaves every file as it
    was, or after it, when the file has been created or truncated and some
    prefix of [data] has reached it.  Which of these happens is the
    environment's choice ([write_outcome]). *)

Module FS.

Inductive write_outcome :=
| WriteOk
| OpenRaises (e : string)
| WriteRaises (e : string) (written : nat).

Definition enoent (path : string) : string :=
  "[Errno 2] No such file or directory: '" +:+ path +:+ "'".

Section Names.

Context {names : FileNames}.

Definition read (fs : gmap string bytes) (exn : option string)
    (path : string) : string + bytes :=
  match exn with
  | Some e => inl e
  | None =>
      if PyStr.truthy path then
        match fs !! resolve path with
        | Some data => inr data
        | None => inl (enoent path)
        end
      else inl (enoent path)
  end.

Definition write (fs : gmap string bytes) (o : write_outcome)
    (path : string) (data : bytes) : option string * gmap string bytes :=
  if PyStr.truthy path then
    match o with
    | WriteOk => (None, <[resolve path := data]> fs)
    | OpenRaises e => (Some e, fs)
    | WriteRaises e n => (Some e, <[resolve path := take n data]> fs)
    end
  else (Some (enoent path), fs).

End Names.

End FS.

(** ** The program *)

(** What [chardet.detect] returns: the entries ['encoding'] and
    ['confidence'] of its dictionary, either of which may be [None]. *)
Record detection := {
  det_encoding : option string;
  det_confidence : option float
}.

(** The exceptions the environment raises during one call of
    [backup_and_convert_to_utf8], one entry per I/O call of the function. *)
Record conv_faults := {
  read_exn : option string;
  makedirs_exn : option string;
  backup_outcome : FS.write_outcome;
  overwrite_outcome : FS.write_outcome
}.

(** One row of the report of [main]. *)
Record report_row := {
  row_path : string;
  row_result : string;
  row_conf : float;
  row_action : option string
}.

(** The literal [0.6], as the binary64 value Python reads it as. *)
Definition ambiguity_threshold : float := 0x1.3333333333333p-1%float.

Section Program.

Context {os_path : OsPath} {names : FileNames}.

(** The mapping tables of the two CJK codecs. *)
Variable jisx0208 : Z -> Z -> option Z.
Variable cp932ext : Z -> Z -> option Z.

(** [data.decode(enc, errors)] for every other encoding name; [None] when
    the call raises ([LookupError] for an unknown name included). *)
Variable other_decode : string -> Codec.errors -> bytes -> option text.

(** The text of the [UnicodeEncodeError] that [text.encode('utf-8')] raises. *)
Variable encode_error_text : text -> string.

(** The [chardet] module; [None] when the import failed. *)
Variable chardet : option (bytes -> detection).

Definition bytes_decode (enc : string) (e : Codec.errors) (data : bytes)
    : option text :=
  if String.eqb enc "shift_jis" then
    Codec.mbc_decode (Codec.shift_jis_step jisx0208) e data
  else if String.eqb enc "cp932" then
    Codec.mbc_decode (Codec.cp932_step jisx0208 cp932ext) e data
  else other_decode enc e data.

Definition is_java_file (fn : string) : bool :=
  PyStr.endswith (PyStr.lower fn) ".java".

Definition detect_shift_jis_bytes (data : bytes) : bool :=
  match bytes_decode "shift_jis" Codec.Strict data with
  | Some _ => true
  | None => false
  end.

Definition detect_with_chardet (data : bytes) : string * float :=
  match chardet with
  | None => ("unknown", PrimFloat.zero)
  | Some detect =>
      let r := detect data in
      (match det_encoding r with
       | Some enc => if PyStr.truthy enc then enc else "unknown"
       | None => "unknown"
       end,
       match det_confidence r with
       | Some c => if PrimFloat.eqb c PrimFloat.zero then PrimFloat.zero else c
       | None => PrimFloat.zero
       end)
  end.

Definition sjis_aliases : list string :=
  ["shiftjis"; "shift_jis"; "sjis"; "cp932"].

(** The test of [analyze_file] on the label of the classifier. *)
Definition sjis_family (enc : string) : bool :=
  PyStr.truthy enc
  && PyStr.mem (PyStr.remove_char "-" (PyStr.lower enc)) sjis_aliases.

Definition analyze_file (fs : gmap string bytes) (exn : option string)
    (path : string) : string * string * float :=
  match FS.read fs exn path with
  | inl e => (path, "error: " +:+ e, PrimFloat.zero)
  | inr data =>
      match chardet with
      | Some _ =>
          let '(enc, conf) := detect_with_chardet data in
          if sjis_family enc then (path, "Shift_JIS", conf)
          else if PrimFloat.ltb conf ambiguity_threshold then
            if detect_shift_jis_bytes data
            then (path, "Shift_JIS(heuristic)", conf)
            else (path, if PyStr.truthy enc then enc else "unknown", conf)
          else (path, if PyStr.truthy enc then enc else "unknown", conf)
      | None =>
          let is_sjis := detect_shift_jis_bytes data in
          (path,
           if is_sjis then "Shift_JIS" else "not Shift_JIS",
           if is_sjis then PrimFloat.one else PrimFloat.zero)
      end
  end.

(** The [for] loop over the candidate encodings.  [tried] is the list of
    that name; the result is the final value of [text] together with the
    calls of [data.decode] the loop made, in the order it made them. *)
Fixpoint decode_loop (cands tried : list string) (data : bytes)
    : option text * list (string * Codec.errors) :=
  match cands with
  | [] => (None, [])
  | enc :: rest =>
      if PyStr.mem enc tried then decode_loop rest tried data
      else
        let tried := tried ++ [enc] in
        match bytes_decode enc Codec.Strict data with
        | Some t => (Some t, [(enc, Codec.Strict)])
        | None =>
            match bytes_decode enc Codec.Replace data with
            | Some t => (Some t, [(enc, Codec.Strict); (enc, Codec.Replace)])
            | None =>
                let '(t, calls) := decode_loop rest tried data in
                (t, (enc, Codec.Strict) :: (enc, Codec.Replace) :: calls)
            end
        end
  end.

(** "Determine backup path": the path of the backup and, when the backup
    goes under [backup_root], the directory [os.makedirs] is called on. *)
Definition backup_target (path : string) (root backup_root : option string)
    : string * option string :=
  match backup_root, root with
  | Some b, Some r =>
      if PyStr.truthy b && PyStr.truthy r then
        let rel := match path_relpath path r with
                   | Some rel => rel
                   | None => path_basename path
                   end in
        let backup_full := path_join b rel +:+ ".jis" in
        (backup_full, Some (path_dirname backup_full))
      else (path +:+ ".jis", None)
  | _, _ => (path +:+ ".jis", None)
  end.

(** [os.makedirs(backup_dir, exist_ok=True)], called only when the backup
    goes under [backup_root]; the exception it raises, if any.  Directories
    hold no bytes, so the files are as they were. *)
Definition makedirs (io : conv_faults) (backup_dir : option string)
    : option string :=
  match backup_dir with
  | Some _ => makedirs_exn io
  | None => None
  end.

Definition backup_and_convert_to_utf8 (fs : gmap string bytes)
    (io : conv_faults) (path : string) (root backup_root : option string)
    (src_encoding : string) : (bool * string) * gmap string bytes :=
  match FS.read fs (read_exn io) path with
  | inl e => ((false, "read error: " +:+ e), fs)
  | inr data =>
      let '(backup_full, backup_dir) := backup_target path root backup_root in
      match makedirs io backup_dir with
      | Some e => ((false, "backup dir create error: " +:+ e), fs)
      | None =>
          match FS.write fs (backup_outcome io) backup_full data with
          | (Some e, fs1) => ((false, "backup error: " +:+ e), fs1)
          | (None, fs1) =>
              match fst (decode_loop [src_encoding; "cp932"; "shift_jis"] [] data) with
              | None =>
                  ((false, "decode error: unable to decode data with shift_jis/cp932"),
                   fs1)
              | Some t =>
                  match utf8_encode t with
                  | None => ((false, "write error: " +:+ encode_error_text t), fs1)
                  | Some out_bytes =>
                      match FS.write fs1 (overwrite_outcome io) path out_bytes with
                      | (Some e, fs2) => ((false, "write error: " +:+ e), fs2)
                      | (None, fs2) =>
                          ((true, "backed up to " +:+ backup_full
                                  +:+ " and converted to UTF-8"), fs2)
                      end
                  end
              end
          end
      end
  end.

(** The test that guards the conversion in [main]. *)
Definition convertible (result : string) : bool :=
  PyStr.contains "Shift_JIS" result
  || PyStr.contains "MacRoman" result
  || PyStr.contains "Windows-1252" result.

(** The body of the loop of [main] for one file [fp]: the row it prints,
    whose action is [None] when no conversion was attempted, and the file
    system it leaves. *)
Definition process_file (fs : gmap string bytes) (do_convert : bool)
    (root : string) (backup_dir : option string)
    (analyze_exn : option string) (io : conv_faults) (fp : string)
    : report_row * gmap string bytes :=
  let '(path, result, conf) := analyze_file fs analyze_exn fp in
  if do_convert && convertible result then
    let '((ok, msg), fs') :=
      backup_and_convert_to_utf8 fs io path
        (if PyStr.truthy_opt backup_dir then Some root else None)
        backup_dir "shift_jis" in
    ({| row_path := path; row_result := result; row_conf := conf;
        row_action := Some (if ok then msg else "ERROR: " +:+ msg) |}, fs')
  else
    ({| row_path := path; row_result := result; row_conf := conf;
        row_action := None |}, fs).

End Program.

(** ** The scan

    [iter_java_files] and [main].  [os.walk] and [os.path.exists] are the
    environment's; a [print] call is recorded with the values it formats,
    not with the text of the line. *)

(** One triple [(dirpath, dirnames, filenames)] of [os.walk]. *)
Definition walk_entry : Type := string * list string * list string.

(** The arguments [argparse] hands to [main]: [path], [--convert] and
    [--backup-dir]. *)
Record args := {
  arg_path : string;
  arg_convert : bool;
  arg_backup_dir : option string
}.

(** The [print] calls of [main]. *)
Inductive printed :=
| PathNotFound (root : string)
| NoJavaFiles (root : string)
| Header
| Separator
| Row (path result : string) (conf : float)
| RowAction (path result : string) (conf : float) (action : string).

Section Scan.

Context {os_path : OsPath} {names : FileNames}.
Variable jisx0208 : Z -> Z -> option Z.
Variable cp932ext : Z -> Z -> option Z.
Variable other_decode : string -> Codec.errors -> bytes -> option text.
Variable encode_error_text : text -> string.
Variable chardet : option (bytes -> detection).

(** [os.walk(root)], as a list; nothing for a root that is no directory. *)
Variable os_walk : string -> list walk_entry.

(** [os.path.exists]. *)
Variable path_exists : string -> bool.

Definition iter_java_files (root : string) : list string :=
  flat_map
    (fun entry : walk_entry =>
       let '(dirpath, _, filenames) := entry in
       List.map (path_join dirpath) (List.filter is_java_file filenames))
    (os_walk root).

(** The lines [main] prints for one file. *)
Definition print_row (row : report_row) : list printed :=
  Row (row_path row) (row_result row) (row_conf row)
  :: match row_action row with
     | Some action =>
         [RowAction (row_path row) (row_result row) (row_conf row) action]
     | None => []
     end.

(** The loop [for fp in files]; [faults i] are the exceptions the
    environment raises while the file at position [i] is processed. *)
Fixpoint main_loop (fs : gmap string bytes) (do_convert : bool)
    (root : string) (backup_dir : option string)
    (faults : nat -> option string * conv_faults) (i : nat)
    (files : list string) : list printed * gmap string bytes :=
  match files with
  | [] => ([], fs)
  | fp :: rest =>
      let '(row, fs1) :=
        process_file jisx0208 cp932ext other_decode encode_error_text chardet
          fs do_convert root backup_dir (faults i).1 (faults i).2 fp in
      let '(out, fs2) :=
        main_loop fs1 do_convert root backup_dir faults (S i) rest in
      (print_row row ++ out, fs2)
  end.

(** [main], from the parsed arguments on: the exit code, the lines
    printed and the file system it leaves. *)
Definition main (fs : gmap string bytes)
    (faults : nat -> option string * conv_faults) (a : args)
    : Z * list printed * gmap string bytes :=
  let root := arg_path a in
  if negb (path_exists root) then (3, [PathNotFound root], fs)
  else
    match iter_java_files root with
    | [] => (0, [NoJavaFiles root], fs)
    | files =>
        let '(out, fs') :=
          main_loop fs (arg_convert a) root (arg_backup_dir a) faults 0%nat
            files in
        (0, Header :: Separator :: out, fs')
    end.

End Scan.

(** ** The specification's wording

    The definitions of this module follow the words of the specification,
    not the code; they are compared with [sjis_family], [convertible] and
    [decode_loop] below. *)

Module Stated.

(** "case-insensitive, strip hyphens/underscores" *)
Definition normalize (label : string) : string :=
  PyStr.remove_char "_" (PyStr.remove_char "-" (PyStr.lower label)).

(** "the Shift_JIS-family alias set" *)
Definition aliases : list string := ["shiftjis"; "sjis"; "cp932"].

Definition sjis_family (label : string) : bool :=
  PyStr.mem (normalize label) aliases.

(** "contains the substring Shift_JIS, or equals one of the auxiliary
    legacy labels MacRoman / Windows-1252" *)
Definition convertible (label : string) : bool :=
  PyStr.contains "Shift_JIS" label
  || String.eqb label "MacRoman"
  || String.eqb label "Windows-1252".

(** "trying, in strict order: preferred_encoding, then cp932, then
    shift_jis (skipping duplicates already tried)" *)
Fixpoint skip_tried (tried cands : list string) : list string :=
  match cands with
  | [] => []
  | c :: rest =>
      if PyStr.mem c tried then skip_tried tried rest
      else c :: skip_tried (tried ++ [c]) rest
  end.

Definition candidate_order (preferred : string) : list string :=
  skip_tried [] [preferred; "cp932"; "shift_jis"].

(** "each first under strict mode and [...] retried once under replace
    mode before moving to the next candidate encoding" *)
Definition attempt_plan (preferred : string)
    : list (string * Codec.errors) :=
  flat_map (fun enc => [(enc, Codec.Strict); (enc, Codec.Replace)])
    (candidate_order preferred).

(** "The first successful decode (strict or replace) wins; no further
    encodings are tried after a success": the text of the first attempt
    of the plan that does not raise, and the attempts made up to it. *)
Fixpoint first_success (dec : string -> Codec.errors -> option text)
    (plan : list (string * Codec.errors))
    : option text * list (string * Codec.errors) :=
  match plan with
  | [] => (None, [])
  | (enc, m) :: rest =>
      match dec enc m with
      | Some t => (Some t, [(enc, m)])
      | None =>
          let '(r, calls) := first_success dec rest in
          (r, (enc, m) :: calls)
      end
  end.

End Stated.

(** ** Sample worlds

    Concrete tables, classifiers and file systems on which the theorems
    below are exercised. *)

Module Sample.

(** Excerpts of the two mapping tables: row 1, cell 1 of JIS X 0208 is the
    ideographic space; row 13 is unassigned in JIS X 0208, and CP932 maps
    the bytes 0x87 0x40 to U+2460 (circled digit one). *)
Definition jisx0208 (r k : Z) : option Z :=
  if (r =? 0x21) && (k =? 0x21) then Some 0x3000 else None.

Definition cp932ext (c c2 : Z) : option Z :=
  if (c =? 0x87) && (c2 =? 0x40) then Some 0x2460 else None.

(** A codec registry that knows no other encoding name: the call raises
    [LookupError], except on the empty buffer, which CPython decodes
    without consulting the registry. *)
Definition no_other_codec (enc : string) (e : Codec.errors) (data : bytes)
    : option text :=
  match data with
  | [] => Some []
  | _ :: _ => None
  end.

Definition encode_error_text (t : text) : string :=
  "'utf-8' codec can't encode character: surrogates not allowed".

(** A classifier that reports the same label and confidence for every
    buffer. *)
Definition constant_chardet (label : string) (conf : float)
    : option (bytes -> detection) :=
  Some (fun _ => {| det_encoding := Some label; det_confidence := Some conf |}).

Definition no_faults : conv_faults := {|
  read_exn := None;
  makedirs_exn := None;
  backup_outcome := FS.WriteOk;
  overwrite_outcome := FS.WriteOk
|}.

(** A file that cannot be read. *)
Definition permission_denied (path : string) : string :=
  "[Errno 13] Permission denied: '" +:+ path +:+ "'".

Definition error_label (path : string) : string :=
  "error: " +:+ permission_denied path.

Definition unreadable (path : string) : conv_faults := {|
  read_exn := Some (permission_denied path);
  makedirs_exn := None;
  backup_outcome := FS.WriteOk;
  overwrite_outcome := FS.WriteOk
|}.

(** The device fills up once the backup file has been opened. *)
Definition disk_full : conv_faults := {|
  read_exn := None;
  makedirs_exn := None;
  backup_outcome := FS.WriteRaises "[Errno 28] No space left on device" 0;
  overwrite_outcome := FS.WriteOk
|}.

(** [posixpath] with the working directory [/w]. *)
Definition posix : OsPath := Posix.os_path (Some "/w").

(** The files of a tree without links, seen from the same directory. *)
Definition names : FileNames := Posix.names "/w".

(** One file holding the half-width katakana A (byte 0xB1). *)
Definition one_file (path : string) : gmap string bytes :=
  {[ resolve (FileNames := names) path := [Byte.xb1] ]}.

(** The original cannot be opened for writing. *)
Definition original_read_only : conv_faults := {|
  read_exn := None;
  makedirs_exn := None;
  backup_outcome := FS.WriteOk;
  overwrite_outcome := FS.OpenRaises "[Errno 13] Permission denied"
|}.

(** A file of three ASCII letters. *)
Definition ascii_file (path : string) : gmap string bytes :=
  {[ resolve (FileNames := names) path := [Byte.x69; Byte.x6e; Byte.x74] ]}.

(** A tree with two Java sources, one of them with its suffix in upper
    case, and a text file. *)
Definition walk (root : string) : list walk_entry :=
  [(root, ["pkg"], ["A.java"; "notes.txt"]);
   (root +:+ "/pkg", [], ["B.JAVA"])].

Definition tree : gmap string bytes :=
  {[ "/w/src/A.java" := [Byte.xb1];
     "/w/src/notes.txt" := [Byte.x68; Byte.x69];
     "/w/src/pkg/B.JAVA" := [Byte.x87] ]}.

(** Every path exists; no call raises. *)
Definition any_path_exists (path : string) : bool := true.

Definition quiet (i : nat) : option string * conv_faults := (None, no_faults).

End Sample.

(** * Properties *)

(** ** The model on small inputs

    The values are those of the Python run time on the same inputs. *)

Example shift_jis_ideographic_space :
  Codec.mbc_decode (Codec.shift_jis_step Sample.jisx0208) Codec.Strict
    [Byte.x81; Byte.x40] = Some [0x3000].
Proof. reflexivity. Qed.

Example shift_jis_lone_lead_byte :
  Codec.mbc_decode (Codec.shift_jis_step Sample.jisx0208) Codec.Strict
    [Byte.x61; Byte.x87] = None
  /\ Codec.mbc_decode (Codec.shift_jis_step Sample.jisx0208) Codec.Replace
       [Byte.x61; Byte.x87] = Some [0x61; 0xfffd].
Proof. split; reflexivity. Qed.

Example cp932_single_bytes :
  Codec.mbc_decode (Codec.cp932_step Sample.jisx0208 Sample.cp932ext)
    Codec.Strict [Byte.x80; Byte.xa0; Byte.xb1; Byte.xfd]
  = Some [0x80; 0xf8f0; 0xff71; 0xf8f1].
Proof. reflexivity. Qed.

Example utf8_encode_lengths :
  utf8_encode [0x41; 0xe9; 0xff71; 0x1f600]
  = Some [Byte.x41; Byte.xc3; Byte.xa9; Byte.xef; Byte.xbd; Byte.xb1;
          Byte.xf0; Byte.x9f; Byte.x98; Byte.x80]
  /\ utf8_encode [0xd800] = None.
Proof. split; reflexivity. Qed.

Example posix_paths :
  Posix.normpath "//a/./b/../c" = "//a/c"
  /\ Posix.join "/d" "." = "/d/."
  /\ Posix.dirname "bk/pkg/A.java.jis" = "bk/pkg"
  /\ Posix.basename "/d/A.java" = "A.java"
  /\ Posix.relpath (Some "/w") "src/pkg/A.java" "src" = Some "pkg/A.java"
  /\ Posix.relpath (Some "/w") "/d/..jis" "/d/..jis" = Some "."
  /\ Posix.relpath (Some "/w") "" "src" = None
  /\ Posix.relpath None "/d/A.java" "src" = None.
Proof. repeat split; vm_compute; reflexivity. Qed.

(** Two spellings of one file, and two files. *)
Example resolved_names :
  resolve (FileNames := Sample.names) "d/..jis" = "/w/d/..jis"
  /\ resolve (FileNames := Sample.names) "./d/..jis" = "/w/d/..jis"
  /\ resolve (FileNames := Sample.names) "src/pkg/../A.java" = "/w/src/A.java"
  /\ resolve (FileNames := Sample.names) "/w/src/A.java.jis"
     = "/w/src/A.java.jis".
Proof. repeat split; vm_compute; reflexivity. Qed.

Example label_normalisation :
  sjis_family "SHIFT_JIS" = true
  /\ sjis_family "Shift-JIS" = true
  /\ sjis_family "CP932" = true
  /\ sjis_family "s_jis" = false
  /\ sjis_family "Windows-1252" = false.
Proof. repeat split; reflexivity. Qed.

(** The label of the negative verdict of the fallback contains the name it
    denies, and so passes the gate of [main]. *)
Example negative_label_is_convertible : convertible "not Shift_JIS" = true.
Proof. reflexivity. Qed.

(** ** Classification *)

Section Classification.

Context {names : FileNames}.
Variable jisx0208 : Z -> Z -> option Z.
Variable cp932ext : Z -> Z -> option Z.
Variable other_decode : string -> Codec.errors -> bytes -> option text.

Local Abbreviation analyze := (analyze_file jisx0208 cp932ext other_decode).
Local Abbreviation decode := (bytes_decode jisx0208 cp932ext other_decode).

(** C5. Without the statistical classifier, a readable file is labelled
    [Shift_JIS] with confidence 1.0 when its bytes decode under strict
    shift_jis, and [not Shift_JIS] with confidence 0.0 when that decoding
    raises. *)
Theorem analyze_file_without_chardet (fs : gmap string bytes)
    (exn : option string) (path : string) (data : bytes) :
  FS.read fs exn path = inr data ->
  analyze None fs exn path =
    match decode "shift_jis" Codec.Strict data with
    | Some _ => (path, "Shift_JIS", PrimFloat.one)
    | None => (path, "not Shift_JIS", PrimFloat.zero)
    end.
Proof.
  intros Hread. unfold analyze_file, detect_shift_jis_bytes.
  rewrite Hread. now destruct (decode _ _ data).
Qed.

(** The label [Shift_JIS] is itself in the family. *)
Lemma sjis_family_of_label (enc : string) :
  enc = "Shift_JIS" -> sjis_family enc = true.
Proof. intros ->. reflexivity. Qed.

(** C6. When the classifier reports a label outside the Shift_JIS family
    with a confidence below 0.6 and the bytes decode under strict
    shift_jis, the verdict is [Shift_JIS(heuristic)] and its confidence is
    the one the classifier reported. *)
Theorem analyze_file_heuristic_keeps_confidence (detect : bytes -> detection)
    (fs : gmap string bytes) (exn : option string) (path : string)
    (data : bytes) (enc : string) (conf : float) (t : text) :
  FS.read fs exn path = inr data ->
  detect_with_chardet (Some detect) data = (enc, conf) ->
  sjis_family enc = false ->
  PrimFloat.ltb conf ambiguity_threshold = true ->
  decode "shift_jis" Codec.Strict data = Some t ->
  analyze (Some detect) fs exn path = (path, "Shift_JIS(heuristic)", conf).
Proof.
  intros Hread Hdet Hfam Hlow Hdec.
  unfold analyze_file, detect_shift_jis_bytes.
  rewrite Hread, Hdet, Hfam, Hlow, Hdec. reflexivity.
Qed.

(** C7, as the code has it. The label of the classifier is lower-cased and
    its hyphens are removed (underscores stay); the verdict is [Shift_JIS],
    with the confidence of the classifier, exactly when the outcome is one
    of shiftjis, shift_jis, sjis and cp932. *)
Theorem analyze_file_family_verdict (detect : bytes -> detection)
    (fs : gmap string bytes) (exn : option string) (path : string)
    (data : bytes) (enc : string) (conf : float) :
  FS.read fs exn path = inr data ->
  detect_with_chardet (Some detect) data = (enc, conf) ->
  ((analyze (Some detect) fs exn path).1.2 = "Shift_JIS"
    <-> PyStr.mem (PyStr.remove_char "-" (PyStr.lower enc))
          ["shiftjis"; "shift_jis"; "sjis"; "cp932"] = true)
  /\ (PyStr.mem (PyStr.remove_char "-" (PyStr.lower enc))
        ["shiftjis"; "shift_jis"; "sjis"; "cp932"] = true ->
      analyze (Some detect) fs exn path = (path, "Shift_JIS", conf)).
Proof.
  intros Hread Hdet.
  assert (Hfam : sjis_family enc
                 = PyStr.mem (PyStr.remove_char "-" (PyStr.lower enc))
                     ["shiftjis"; "shift_jis"; "sjis"; "cp932"]).
  { unfold sjis_family, sjis_aliases. now destruct enc. }
  rewrite <- Hfam.
  unfold analyze_file. rewrite Hread, Hdet.
  destruct (sjis_family enc) eqn:Hf.
  - split; [split|]; reflexivity.
  - split; [|discriminate].
    split; [|discriminate].
    intros Hlabel. exfalso.
    destruct (PrimFloat.ltb conf ambiguity_threshold);
      [destruct (detect_shift_jis_bytes _ _ _ data)|]; cbn in Hlabel;
      try discriminate Hlabel;
      (destruct (PyStr.truthy enc);
       [apply sjis_family_of_label in Hlabel; congruence
       |discriminate Hlabel]).
Qed.

End Classification.

Lemma analyze_file_without_chardet_witness :
  FS.read (names := Sample.names) (Sample.one_file "A.java") None "A.java" = inr [Byte.xb1]
  /\ analyze_file (names := Sample.names) Sample.jisx0208 Sample.cp932ext Sample.no_other_codec None
       (Sample.one_file "A.java") None "A.java"
     = ("A.java", "Shift_JIS", PrimFloat.one).
Proof.
  assert (Hread : FS.read (names := Sample.names) (Sample.one_file "A.java") None "A.java"
                  = inr [Byte.xb1]) by (vm_compute; reflexivity).
  split; [exact Hread|].
  rewrite (analyze_file_without_chardet (names := Sample.names) Sample.jisx0208 Sample.cp932ext
             Sample.no_other_codec _ _ _ _ Hread).
  reflexivity.
Defined.

Lemma analyze_file_heuristic_keeps_confidence_witness :
  analyze_file (names := Sample.names) Sample.jisx0208 Sample.cp932ext Sample.no_other_codec
    (Sample.constant_chardet "ascii" 0.5%float)
    (Sample.one_file "A.java") None "A.java"
  = ("A.java", "Shift_JIS(heuristic)", 0.5%float).
Proof.
  apply (analyze_file_heuristic_keeps_confidence (names := Sample.names) Sample.jisx0208
           Sample.cp932ext Sample.no_other_codec (fun _ => _) _ _ _
           [Byte.xb1] "ascii" 0.5%float [0xff71]);
    vm_compute; reflexivity.
Defined.

Lemma analyze_file_family_verdict_witness :
  analyze_file (names := Sample.names) Sample.jisx0208 Sample.cp932ext Sample.no_other_codec
    (Sample.constant_chardet "SHIFT_JIS" 0.75%float)
    (Sample.one_file "A.java") None "A.java"
  = ("A.java", "Shift_JIS", 0.75%float).
Proof.
  apply (analyze_file_family_verdict (names := Sample.names) Sample.jisx0208 Sample.cp932ext
           Sample.no_other_codec (fun _ => _) (Sample.one_file "A.java")
           None "A.java" [Byte.xb1] "SHIFT_JIS" 0.75%float);
    vm_compute; reflexivity.
Defined.

(** C7, as stated, fails: with underscores stripped the label S_JIS would
    be the alias sjis, yet the verdict keeps the label of the classifier. *)
Lemma analyze_file_underscore_label :
  Stated.sjis_family "S_JIS" = true
  /\ analyze_file (names := Sample.names) Sample.jisx0208 Sample.cp932ext Sample.no_other_codec
       (Sample.constant_chardet "S_JIS" 0.75%float)
       (Sample.one_file "A.java") None "A.java"
     = ("A.java", "S_JIS", 0.75%float).
Proof. split; vm_compute; reflexivity. Qed.

(** What the code accepts, the specification's wording accepts too. *)
Lemma sjis_family_stated (enc : string) :
  sjis_family enc = true -> Stated.sjis_family enc = true.
Proof.
  unfold sjis_family, Stated.sjis_family, Stated.normalize, sjis_aliases,
    Stated.aliases.
  intros [_ Hm]%andb_true_iff. cbn [PyStr.mem] in Hm.
  repeat (apply orb_true_iff in Hm as [Hm|Hm]);
    try discriminate Hm; apply String.eqb_eq in Hm; rewrite Hm; reflexivity.
Qed.

(** ** The conversion gate of [main] *)

Section Gate.

Context {os_path : OsPath} {names : FileNames}.
Variable jisx0208 : Z -> Z -> option Z.
Variable cp932ext : Z -> Z -> option Z.
Variable other_decode : string -> Codec.errors -> bytes -> option text.
Variable encode_error_text : text -> string.
Variable chardet : option (bytes -> detection).

(** C8, as the code has it. For one file of the scan, a conversion is
    attempted exactly when conversion was requested and the label of the
    verdict contains one of the substrings Shift_JIS, MacRoman and
    Windows-1252. *)
Theorem process_file_converts_iff (fs : gmap string bytes)
    (do_convert : bool) (root : string) (backup_dir : option string)
    (analyze_exn : option string) (io : conv_faults) (fp : string) :
  let label :=
    (analyze_file jisx0208 cp932ext other_decode chardet fs analyze_exn fp).1.2 in
  is_Some (row_action
             (process_file jisx0208 cp932ext other_decode encode_error_text
                chardet fs do_convert root backup_dir analyze_exn io fp).1)
  <-> do_convert = true
      /\ (PyStr.contains "Shift_JIS" label = true
          \/ PyStr.contains "MacRoman" label = true
          \/ PyStr.contains "Windows-1252" label = true).
Proof.
  cbn zeta. unfold process_file.
  destruct (analyze_file _ _ _ _ fs analyze_exn fp) as [[path result] conf].
  cbn [fst snd]. unfold convertible.
  rewrite <- !orb_true_iff, <- andb_true_iff, orb_assoc.
  destruct (do_convert && _) eqn:Hgate.
  - destruct (backup_and_convert_to_utf8 _ _ _ _ _ _ _ _ _ _) as [[ok msg] fs'].
    cbn. split; [reflexivity|eauto].
  - cbn. split; [intros [a Ha]; discriminate Ha|discriminate].
Qed.

End Gate.

(** C8, as stated, fails: a file under a directory named MacRoman that
    cannot be read gets an error label which contains MacRoman without
    being equal to it, and a conversion is attempted for it. *)
Lemma process_file_converts_error_label :
  (analyze_file (names := Sample.names) Sample.jisx0208 Sample.cp932ext Sample.no_other_codec None
     (Sample.one_file "MacRoman/A.java")
     (Some (Sample.permission_denied "MacRoman/A.java")) "MacRoman/A.java").1.2
  = Sample.error_label "MacRoman/A.java"
  /\ Stated.convertible (Sample.error_label "MacRoman/A.java") = false
  /\ row_action
       (process_file (os_path := Sample.posix) (names := Sample.names)
          Sample.jisx0208 Sample.cp932ext Sample.no_other_codec
          Sample.encode_error_text None
          (Sample.one_file "MacRoman/A.java") true "MacRoman" None
          (Some (Sample.permission_denied "MacRoman/A.java"))
          (Sample.unreadable "MacRoman/A.java") "MacRoman/A.java").1
     = Some "ERROR: read error: [Errno 13] Permission denied: 'MacRoman/A.java'".
Proof. repeat split; vm_compute; reflexivity. Qed.

(** ** The decode stage of the conversion *)

Lemma shift_jis_step_sound (jisx0208 : Z -> Z -> option Z) :
  Codec.step_sound (Codec.shift_jis_step jisx0208).
Proof.
  intros c u. unfold Codec.shift_jis_step.
  repeat case_match; discriminate.
Qed.

Lemma cp932_step_sound (jisx0208 cp932ext : Z -> Z -> option Z) :
  Codec.step_sound (Codec.cp932_step jisx0208 cp932ext).
Proof.
  intros c u. unfold Codec.cp932_step.
  repeat case_match; discriminate.
Qed.

(** Under the replace handler the driver consumes the whole buffer and
    returns a text, whatever the bytes. *)
Lemma mbc_decode_replace_total (step : Z -> option Z -> Codec.dec_step)
    (inp : bytes) :
  Codec.step_sound step -> is_Some (Codec.mbc_decode step Codec.Replace inp).
Proof.
  intros Hs.
  enough (is_Some (Codec.mbc_decode step Codec.Replace inp)
          /\ forall b, is_Some (Codec.mbc_decode step Codec.Replace (b :: inp)))
    as [H _] by exact H.
  induction inp as [|a inp [IH0 IH1]].
  - split; [eexists; reflexivity|].
    intros b. cbn.
    destruct (step (byte_val b) None) eqn:Hstep; cbn; eauto.
    exfalso. exact (Hs _ _ Hstep).
  - split; [apply IH1|].
    intros b. cbn [Codec.mbc_decode].
    destruct (step (byte_val b) _); try (apply fmap_is_Some); eauto.
Qed.

Lemma first_success_facts (dec : string -> Codec.errors -> option text)
    (plan : list (string * Codec.errors)) :
  (Stated.first_success dec plan).2 `prefix_of` plan
  /\ (forall i a, (Stated.first_success dec plan).2 !! i = Some a ->
       (S i < length (Stated.first_success dec plan).2)%nat ->
       dec a.1 a.2 = None)
  /\ match (Stated.first_success dec plan).1 with
     | Some t =>
         exists a, last (Stated.first_success dec plan).2 = Some a
                   /\ dec a.1 a.2 = Some t
     | None =>
         (Stated.first_success dec plan).2 = plan
         /\ Forall (fun a => dec a.1 a.2 = None) plan
     end.
Proof.
  induction plan as [|[enc m] plan (Hpre & Hfail & Hlast)]; cbn.
  - split; [done|]. split; [intros i a Hi; discriminate Hi|]. by split.
  - destruct (dec enc m) eqn:Hd; cbn.
    + split; [by apply prefix_cons, prefix_nil|].
      split; [intros i a _ Hlt; cbn in Hlt; lia|].
      exists (enc, m). by split.
    + destruct (Stated.first_success dec plan) as [r calls] eqn:Hfs.
      cbn in *. split; [by apply prefix_cons|]. split.
      * intros [|i] a Hi Hlt; cbn in Hi.
        -- by inversion Hi; subst.
        -- apply (Hfail i a Hi). lia.
      * destruct r as [t|].
        -- destruct Hlast as (a & Ha & Hda). exists a. split; [|done].
           destruct calls; [discriminate Ha|]. exact Ha.
        -- destruct Hlast as [-> Hall]. split; [done|].
           by constructor.
Qed.

Section Decode.

Variable jisx0208 : Z -> Z -> option Z.
Variable cp932ext : Z -> Z -> option Z.
Variable other_decode : string -> Codec.errors -> bytes -> option text.

Local Abbreviation decode := (bytes_decode jisx0208 cp932ext other_decode).
Local Abbreviation loop :=
  (fun src_encoding data =>
     decode_loop jisx0208 cp932ext other_decode
       [src_encoding; "cp932"; "shift_jis"] [] data).

Lemma decode_replace_shift_jis (data : bytes) :
  is_Some (decode "shift_jis" Codec.Replace data).
Proof. apply mbc_decode_replace_total, shift_jis_step_sound. Qed.

Lemma decode_replace_cp932 (data : bytes) :
  is_Some (decode "cp932" Codec.Replace data).
Proof. apply mbc_decode_replace_total, cp932_step_sound. Qed.

(** The loop with its [tried] list against the plan of attempts. *)
Lemma decode_loop_plan (cands tried : list string) (data : bytes) :
  decode_loop jisx0208 cp932ext other_decode cands tried data
  = Stated.first_success (fun enc m => decode enc m data)
      (flat_map (fun enc => [(enc, Codec.Strict); (enc, Codec.Replace)])
         (Stated.skip_tried tried cands)).
Proof.
  revert tried. induction cands as [|enc cands IH]; intros tried; cbn.
  - reflexivity.
  - destruct (PyStr.mem enc tried); [apply IH|]. cbn.
    destruct (decode enc Codec.Strict data); [reflexivity|].
    destruct (decode enc Codec.Replace data); [reflexivity|].
    rewrite IH. by destruct (Stated.first_success _ _).
Qed.

(** The order of the candidates, spelled out. *)
Lemma candidate_order_cases (src_encoding : string) :
  Stated.candidate_order src_encoding
  = if String.eqb src_encoding "cp932" then ["cp932"; "shift_jis"]
    else if String.eqb src_encoding "shift_jis" then ["shift_jis"; "cp932"]
    else [src_encoding; "cp932"; "shift_jis"].
Proof.
  unfold Stated.candidate_order. cbn -[String.eqb].
  rewrite !orb_false_r, (String.eqb_sym "cp932"), (String.eqb_sym "shift_jis").
  destruct (String.eqb_spec src_encoding "cp932") as [->|_]; [reflexivity|].
  by destruct (String.eqb_spec src_encoding "shift_jis") as [->|_].
Qed.

(** C4. The decode stage makes its calls of [data.decode] along the plan
    "preferred, cp932, shift_jis, duplicates skipped, each strict and then
    replace": the calls made are an initial part of that plan, every call
    but the last one raised, the text is what the last call returned, and
    when no text results every attempt of the plan was made and raised. *)
Theorem decode_loop_order (src_encoding : string) (data : bytes) :
  Stated.candidate_order src_encoding
    = (if String.eqb src_encoding "cp932" then ["cp932"; "shift_jis"]
       else if String.eqb src_encoding "shift_jis" then ["shift_jis"; "cp932"]
       else [src_encoding; "cp932"; "shift_jis"])
  /\ loop src_encoding data
    = Stated.first_success (fun enc m => decode enc m data)
        (Stated.attempt_plan src_encoding)
  /\ (loop src_encoding data).2 `prefix_of` Stated.attempt_plan src_encoding
  /\ (forall i a, (loop src_encoding data).2 !! i = Some a ->
       (S i < length (loop src_encoding data).2)%nat ->
       decode a.1 a.2 data = None)
  /\ match (loop src_encoding data).1 with
     | Some t =>
         exists a, last (loop src_encoding data).2 = Some a
                   /\ decode a.1 a.2 data = Some t
     | None =>
         (loop src_encoding data).2 = Stated.attempt_plan src_encoding
         /\ Forall (fun a => decode a.1 a.2 data = None)
              (Stated.attempt_plan src_encoding)
     end.
Proof.
  split; [apply candidate_order_cases|].
  cbn beta. rewrite decode_loop_plan.
  split; [reflexivity|].
  apply (first_success_facts (fun enc m => decode enc m data)).
Qed.

(** The loop never leaves [text] at [None]. *)
Lemma decode_loop_total (src_encoding : string) (data : bytes) :
  is_Some (loop src_encoding data).1.
Proof.
  cbn -[bytes_decode String.eqb].
  destruct (decode src_encoding Codec.Strict data) eqn:Hs; [by eexists|].
  destruct (decode src_encoding Codec.Replace data) eqn:Hr; [by eexists|].
  rewrite orb_false_r.
  destruct (String.eqb_spec "cp932" src_encoding) as [<-|_].
  { destruct (decode_replace_cp932 data) as [t Ht]. congruence. }
  destruct (decode "cp932" Codec.Strict data); [by eexists|].
  destruct (decode_replace_cp932 data) as [t ->]. by eexists.
Qed.

(** With shift_jis as the source encoding only shift_jis is consulted. *)
Lemma decode_loop_shift_jis (data : bytes) :
  loop "shift_jis" data
  = match decode "shift_jis" Codec.Strict data with
    | Some t => (Some t, [("shift_jis", Codec.Strict)])
    | None => (decode "shift_jis" Codec.Replace data,
               [("shift_jis", Codec.Strict); ("shift_jis", Codec.Replace)])
    end.
Proof.
  cbn -[bytes_decode String.eqb].
  destruct (decode "shift_jis" Codec.Strict data); [reflexivity|].
  destruct (decode_replace_shift_jis data) as [t ->]. reflexivity.
Qed.

End Decode.

(** ** The file system operations *)

Lemma read_inr {names : FileNames} (fs : gmap string bytes) (exn : option string)
    (path : string) (data : bytes) :
  FS.read fs exn path = inr data -> fs !! resolve path = Some data.
Proof.
  unfold FS.read. destruct exn; [discriminate|].
  destruct (PyStr.truthy path); [|discriminate].
  destruct (fs !! resolve path); [|discriminate]. by intros [= ->].
Qed.

(** A write touches no file but the one its path names. *)
Lemma write_frame {names : FileNames} (fs : gmap string bytes)
    (o : FS.write_outcome) (path : string) (data : bytes) (q : string) :
  q <> resolve path -> (FS.write fs o path data).2 !! q = fs !! q.
Proof.
  intros Hq. unfold FS.write.
  destruct (PyStr.truthy path); [|reflexivity].
  destruct o; cbn; [|reflexivity|]; by rewrite lookup_insert_ne.
Qed.

Lemma write_done {names : FileNames} (fs : gmap string bytes)
    (o : FS.write_outcome) (path : string) (data : bytes) :
  (FS.write fs o path data).1 = None ->
  o = FS.WriteOk
  /\ (FS.write fs o path data).2 = <[resolve path := data]> fs.
Proof.
  unfold FS.write. destruct (PyStr.truthy path); [|discriminate].
  destruct o; cbn; [done|discriminate..].
Qed.

Lemma write_raises {names : FileNames} (fs : gmap string bytes)
    (o : FS.write_outcome) (path : string) (data : bytes) :
  o <> FS.WriteOk -> is_Some (FS.write fs o path data).1.
Proof.
  intros Ho. unfold FS.write. destruct (PyStr.truthy path); [|by eexists].
  destruct o; cbn; [done|by eexists..].
Qed.

Lemma append_jis_ne (path : string) : path +:+ ".jis" <> path.
Proof.
  induction path as [|c path IH]; cbn; [discriminate|].
  intros [= H]. by apply IH.
Qed.

Lemma rev_app_append (a b acc : string) :
  String.rev_app (a +:+ b) acc = String.rev_app b (String.rev_app a acc).
Proof.
  revert acc. induction a as [|c a IH]; intros acc; [reflexivity|].
  change (String c a +:+ b) with (String c (a +:+ b)).
  cbn [String.rev_app]. apply IH.
Qed.

Lemma lower_append (a b : string) :
  PyStr.lower (a +:+ b) = PyStr.lower a +:+ PyStr.lower b.
Proof.
  induction a as [|c a IH]; [reflexivity|].
  change (String c a +:+ b) with (String c (a +:+ b)).
  cbn [PyStr.lower]. by rewrite IH.
Qed.

Lemma jis_is_not_java (stem : string) : is_java_file (stem +:+ ".jis") = false.
Proof.
  unfold is_java_file, PyStr.endswith, String.rev.
  rewrite lower_append, rev_app_append. reflexivity.
Qed.

(** ** The conversion *)

Section Conversion.

Context {os_path : OsPath} {names : FileNames}.
Variable jisx0208 : Z -> Z -> option Z.
Variable cp932ext : Z -> Z -> option Z.
Variable other_decode : string -> Codec.errors -> bytes -> option text.
Variable encode_error_text : text -> string.

Local Abbreviation convert :=
  (backup_and_convert_to_utf8 jisx0208 cp932ext other_decode encode_error_text).
Local Abbreviation decode := (bytes_decode jisx0208 cp932ext other_decode).

(** Without a backup root, or without a scan root, the backup is the
    sibling of the original. *)
Lemma backup_target_sibling (path : string) (root backup_root : option string) :
  PyStr.truthy_opt backup_root && PyStr.truthy_opt root = false ->
  backup_target path root backup_root = (path +:+ ".jis", None).
Proof.
  unfold backup_target. destruct backup_root as [b|], root as [r|]; cbn;
    try reflexivity.
  by intros ->.
Qed.

(** The backup path ends in [.jis]; a path that [iter_java_files] yields
    ends in [.java], whatever the case of its letters, so it is never its
    own backup. *)
Lemma backup_target_jis (path : string) (root backup_root : option string) :
  exists stem, (backup_target path root backup_root).1 = stem +:+ ".jis".
Proof.
  unfold backup_target.
  destruct backup_root as [b|], root as [r|]; try (by eexists).
  destruct (PyStr.truthy b && PyStr.truthy r); by eexists.
Qed.

Lemma java_path_not_its_backup (path : string)
    (root backup_root : option string) :
  is_java_file path = true ->
  (backup_target path root backup_root).1 <> path.
Proof.
  intros Hjava Heq.
  destruct (backup_target_jis path root backup_root) as [stem Hstem].
  rewrite Heq in Hstem. rewrite Hstem, jis_is_not_java in Hjava.
  discriminate Hjava.
Qed.

(** C1, as the code has it. When creating the backup directory or writing
    the backup fails, the call returns failure and no file has changed but,
    at most, the one the backup path names.  Where the failure comes
    before the backup file is open (in [os.makedirs] or in [open]) every
    file is as it was, the original included, whatever the paths; where
    the write fails once the file is open, the original holds the bytes it
    held before provided the backup path does not name the original
    itself. *)
Theorem backup_failure_keeps_original (fs : gmap string bytes)
    (io : conv_faults) (path : string) (root backup_root : option string)
    (src_encoding : string) :
  is_Some (makedirs io (backup_target path root backup_root).2)
    \/ backup_outcome io <> FS.WriteOk ->
  (convert fs io path root backup_root src_encoding).1.1 = false
  /\ (forall q, q <> resolve (backup_target path root backup_root).1 ->
        (convert fs io path root backup_root src_encoding).2 !! q = fs !! q)
  /\ (is_Some (makedirs io (backup_target path root backup_root).2)
      \/ (exists e, backup_outcome io = FS.OpenRaises e) ->
      (convert fs io path root backup_root src_encoding).2 = fs)
  /\ (resolve (backup_target path root backup_root).1 <> resolve path ->
      (convert fs io path root backup_root src_encoding).2 !! resolve path
      = fs !! resolve path).
Proof.
  intros Hfail.
  enough ((convert fs io path root backup_root src_encoding).1.1 = false
          /\ (forall q, q <> resolve (backup_target path root backup_root).1 ->
                (convert fs io path root backup_root src_encoding).2 !! q
                = fs !! q)
          /\ (is_Some (makedirs io (backup_target path root backup_root).2)
              \/ (exists e, backup_outcome io = FS.OpenRaises e) ->
              (convert fs io path root backup_root src_encoding).2 = fs))
    as (H1 & H2 & H3).
  { repeat (split; [done|]). intros Hne. apply H2. congruence. }
  unfold backup_and_convert_to_utf8.
  destruct (FS.read fs (read_exn io) path) as [e|data]; [done|].
  destruct (backup_target path root backup_root) as [bf bd]. cbn [fst snd] in *.
  destruct (makedirs io bd) as [e|]; [done|].
  destruct Hfail as [[e He]|Hw]; [discriminate He|].
  pose proof (write_raises fs _ bf data Hw) as [e He].
  pose proof (write_frame fs (backup_outcome io) bf data) as Hframe.
  assert (Hopen : forall e', backup_outcome io = FS.OpenRaises e' ->
                             (FS.write fs (backup_outcome io) bf data).2 = fs).
  { intros e' ->. unfold FS.write. by destruct (PyStr.truthy bf). }
  destruct (FS.write fs (backup_outcome io) bf data) as [[e'|] fs1];
    [|discriminate He].
  cbn in *. split; [done|]. split; [done|].
  intros [[? [=]]|[e'' He'']]. by apply (Hopen e'').
Qed.

(** C2, as the code has it. When the backup path does not name the
    original itself, a call that returns success names the backup path in
    its message, and the file that path names holds the bytes the original
    held before the call. *)
Theorem success_keeps_backup (fs fs' : gmap string bytes) (io : conv_faults)
    (path : string) (root backup_root : option string)
    (src_encoding msg : string) :
  resolve (backup_target path root backup_root).1 <> resolve path ->
  convert fs io path root backup_root src_encoding = ((true, msg), fs') ->
  msg = "backed up to " +:+ (backup_target path root backup_root).1
        +:+ " and converted to UTF-8"
  /\ exists data, fs !! resolve path = Some data
       /\ fs' !! resolve (backup_target path root backup_root).1 = Some data.
Proof.
  intros Hne. unfold backup_and_convert_to_utf8.
  destruct (FS.read fs (read_exn io) path) as [e|data] eqn:Hread;
    [discriminate|].
  apply read_inr in Hread.
  destruct (backup_target path root backup_root) as [bf bd]. cbn [fst snd] in *.
  destruct (makedirs io bd) as [e|]; [discriminate|].
  pose proof (write_done fs (backup_outcome io) bf data) as Hw1.
  destruct (FS.write fs (backup_outcome io) bf data) as [[e|] fs1];
    [discriminate|].
  destruct (Hw1 eq_refl) as [_ Hfs1]. cbn in Hfs1. subst fs1.
  destruct (decode_loop _ _ _ _ _ data).1 as [t|]; [|discriminate].
  destruct (utf8_encode t) as [out|]; [|discriminate].
  pose proof (write_done (<[resolve bf:=data]> fs) (overwrite_outcome io)
                path out) as Hw2.
  destruct (FS.write (<[resolve bf:=data]> fs) (overwrite_outcome io) path out)
    as [[e|] fs2]; [discriminate|].
  destruct (Hw2 eq_refl) as [_ Hfs2]. cbn in Hfs2. subst fs2.
  intros [= <- <-]. split; [reflexivity|].
  exists data. split; [done|].
  rewrite lookup_insert_ne by done. by rewrite lookup_insert_eq.
Qed.

Lemma truthy_ne (s : string) : s <> "" -> PyStr.truthy s = true.
Proof. by destruct s. Qed.

(** [relpath] asks for the working directory only to make a relative
    path absolute. *)
Lemma posix_relpath_absolute (cwd1 cwd2 : option string) (path start : string) :
  Posix.isabs path = true -> Posix.isabs start = true ->
  Posix.relpath cwd1 path start = Posix.relpath cwd2 path start.
Proof.
  intros Hp Hs. unfold Posix.relpath, Posix.abspath. by rewrite Hp, Hs.
Qed.

(** C9, as the code has it. With a backup root and a scan root, both given
    and not empty, the backup path is [join(backup_root, rel) + ".jis"],
    where [rel] is [relpath(path, root)] or, where [relpath] raises, the
    base name of [path]; otherwise it is [path + ".jis"].  Through
    [relpath] the path depends on the working directory of the process as
    well as on the three inputs; on POSIX paths it is the same under every
    working directory when no backup root is in use, or when [path] and
    [root] are absolute. *)
Theorem backup_path_derivation (path : string)
    (root backup_root : option string) :
  (forall b r rel,
      backup_root = Some b -> root = Some r -> b <> "" -> r <> "" ->
      path_relpath path r = Some rel ->
      (backup_target path root backup_root).1 = path_join b rel +:+ ".jis")
  /\ (forall b r,
      backup_root = Some b -> root = Some r -> b <> "" -> r <> "" ->
      path_relpath path r = None ->
      (backup_target path root backup_root).1
        = path_join b (path_basename path) +:+ ".jis")
  /\ (PyStr.truthy_opt backup_root && PyStr.truthy_opt root = false ->
      (backup_target path root backup_root).1 = path +:+ ".jis")
  /\ (forall cwd1 cwd2,
      PyStr.truthy_opt backup_root && PyStr.truthy_opt root = false
      \/ (Posix.isabs path = true
          /\ forall r, root = Some r -> Posix.isabs r = true) ->
      backup_target (os_path := Posix.os_path cwd1) path root backup_root
      = backup_target (os_path := Posix.os_path cwd2) path root backup_root).
Proof.
  split; [|split; [|split]].
  - intros b r rel -> -> Hb Hr Hrel. unfold backup_target.
    by rewrite (truthy_ne b Hb), (truthy_ne r Hr), Hrel.
  - intros b r -> -> Hb Hr Hrel. unfold backup_target.
    by rewrite (truthy_ne b Hb), (truthy_ne r Hr), Hrel.
  - intros H. by rewrite backup_target_sibling.
  - intros cwd1 cwd2 [H|[Hp Hr]].
    + unfold backup_target. destruct backup_root as [b|], root as [r|];
        try done.
      cbn [PyStr.truthy_opt] in H. by rewrite H.
    + unfold backup_target. destruct backup_root as [b|], root as [r|]; try done.
      cbn [path_relpath path_join path_basename path_dirname Posix.os_path].
      by rewrite (posix_relpath_absolute cwd1 cwd2 path r Hp (Hr r eq_refl)).
Qed.

(** C10. Decoding under the replace handler never raises for shift_jis nor
    for cp932; hence the loop over the candidates always ends with a text,
    the decode-error return is never taken, and once the backup has been
    written a call either succeeds or fails in the step that encodes and
    writes the UTF-8 bytes. *)
Theorem decode_stage_never_fails (src_encoding : string) (data : bytes) :
  is_Some (decode "shift_jis" Codec.Replace data)
  /\ is_Some (decode "cp932" Codec.Replace data)
  /\ is_Some (decode_loop jisx0208 cp932ext other_decode
               [src_encoding; "cp932"; "shift_jis"] [] data).1
  /\ forall fs io path root backup_root,
      (convert fs io path root backup_root src_encoding).1.2
        <> "decode error: unable to decode data with shift_jis/cp932"
      /\ (FS.read fs (read_exn io) path = inr data ->
          makedirs io (backup_target path root backup_root).2 = None ->
          (FS.write fs (backup_outcome io)
             (backup_target path root backup_root).1 data).1 = None ->
          (convert fs io path root backup_root src_encoding).1.1 = true
          \/ exists e,
               (convert fs io path root backup_root src_encoding).1.2
                 = "write error: " +:+ e).
Proof.
  split; [apply decode_replace_shift_jis|].
  split; [apply decode_replace_cp932|].
  split; [apply decode_loop_total|].
  intros fs io path root backup_root. split.
  - unfold backup_and_convert_to_utf8.
    destruct (FS.read fs (read_exn io) path) as [e|data']; [discriminate|].
    destruct (backup_target path root backup_root) as [bf bd].
    destruct (makedirs io bd) as [e|]; [discriminate|].
    destruct (FS.write fs (backup_outcome io) bf data') as [[e|] fs1];
      [discriminate|].
    destruct (decode_loop_total jisx0208 cp932ext other_decode
                src_encoding data') as [t ->].
    destruct (utf8_encode t) as [out|]; [|discriminate].
    destruct (FS.write fs1 (overwrite_outcome io) path out) as [[e|] fs2];
      discriminate.
  - intros Hread Hmk Hw. unfold backup_and_convert_to_utf8. rewrite Hread.
    destruct (backup_target path root backup_root) as [bf bd].
    cbn [fst snd] in *. rewrite Hmk.
    destruct (FS.write fs (backup_outcome io) bf data) as [[e|] fs1];
      [discriminate Hw|].
    destruct (decode_loop_total jisx0208 cp932ext other_decode
                src_encoding data) as [t ->].
    destruct (utf8_encode t) as [out|]; [|by right; eexists].
    destruct (FS.write fs1 (overwrite_outcome io) path out) as [[e|] fs2];
      [by right; eexists|by left].
Qed.

(** When strict shift_jis decoding raises, the text of a shift_jis
    conversion is the replace-mode text; cp932 is not consulted. *)
Lemma shift_jis_failure_is_replaced (data : bytes) :
  decode "shift_jis" Codec.Strict data = None ->
  decode_loop jisx0208 cp932ext other_decode
    ["shift_jis"; "cp932"; "shift_jis"] [] data
  = (decode "shift_jis" Codec.Replace data,
     [("shift_jis", Codec.Strict); ("shift_jis", Codec.Replace)]).
Proof.
  intros H.
  rewrite (decode_loop_shift_jis jisx0208 cp932ext other_decode data).
  by rewrite H.
Qed.

(** C3 on the bytes 0x87 0x40, the circled digit one of CP932: strict
    shift_jis decoding raises and strict cp932 decoding gives U+2460, but
    the converted file holds U+FFFD followed by an at sign. *)
Theorem circled_digit_is_replaced :
  jisx0208 0x2d 0x21 = None ->
  cp932ext 0x87 0x40 = Some 0x2460 ->
  decode "shift_jis" Codec.Strict [Byte.x87; Byte.x40] = None
  /\ decode "cp932" Codec.Strict [Byte.x87; Byte.x40] = Some [0x2460]
  /\ utf8_encode [0x2460] = Some [Byte.xe2; Byte.x91; Byte.xa0]
  /\ (convert {[ resolve "A.java" := [Byte.x87; Byte.x40] ]} Sample.no_faults
        "A.java" None None "shift_jis").1.1 = true
  /\ (convert {[ resolve "A.java" := [Byte.x87; Byte.x40] ]} Sample.no_faults
        "A.java" None None "shift_jis").2 !! resolve "A.java"
     = Some [Byte.xef; Byte.xbf; Byte.xbd; Byte.x40].
Proof.
  intros Hjis Hext.
  assert (Hs : decode "shift_jis" Codec.Strict [Byte.x87; Byte.x40] = None).
  { vm_compute. by rewrite Hjis. }
  assert (Hr : decode "shift_jis" Codec.Replace [Byte.x87; Byte.x40]
               = Some [0xfffd; 0x40]).
  { vm_compute. by rewrite Hjis. }
  split; [exact Hs|].
  split; [vm_compute; by rewrite Hext|].
  split; [reflexivity|].
  unfold backup_and_convert_to_utf8.
  replace (FS.read _ _ _) with (inr (A := string) [Byte.x87; Byte.x40])
    by (unfold FS.read; cbn [read_exn Sample.no_faults];
        change (PyStr.truthy "A.java") with true;
        by rewrite lookup_singleton_eq).
  cbn [backup_target makedirs Sample.no_faults backup_outcome
       overwrite_outcome].
  unfold FS.write.
  change (PyStr.truthy ("A.java" +:+ ".jis")) with true.
  change (PyStr.truthy "A.java") with true. cbv iota.
  rewrite (shift_jis_failure_is_replaced _ Hs), Hr. cbn [fst].
  change (utf8_encode [0xfffd; 0x40])
    with (Some [Byte.xef; Byte.xbf; Byte.xbd; Byte.x40]).
  cbn [fst snd]. split; [reflexivity|]. by rewrite lookup_insert_eq.
Qed.

End Conversion.

(** ** The theorems at work on the sample worlds *)

Lemma backup_failure_keeps_original_witness :
  (backup_and_convert_to_utf8 (os_path := Sample.posix) (names := Sample.names)
     Sample.jisx0208 Sample.cp932ext Sample.no_other_codec
     Sample.encode_error_text (Sample.one_file "src/A.java")
     Sample.disk_full "src/A.java" (Some "src") (Some "bk") "shift_jis").1.1
  = false
  /\ (backup_and_convert_to_utf8 (os_path := Sample.posix)
        (names := Sample.names)
        Sample.jisx0208 Sample.cp932ext Sample.no_other_codec
        Sample.encode_error_text (Sample.one_file "src/A.java")
        Sample.disk_full "src/A.java" (Some "src") (Some "bk") "shift_jis").2
     !! resolve (FileNames := Sample.names) "src/A.java"
     = Sample.one_file "src/A.java"
         !! resolve (FileNames := Sample.names) "src/A.java".
Proof.
  destruct (@backup_failure_keeps_original Sample.posix Sample.names
              Sample.jisx0208 Sample.cp932ext Sample.no_other_codec
              Sample.encode_error_text (Sample.one_file "src/A.java")
              Sample.disk_full "src/A.java" (Some "src") (Some "bk")
              "shift_jis") as (H1 & _ & _ & H4).
  - right. discriminate.
  - split; [exact H1|]. apply H4. vm_compute. discriminate.
Defined.

(** C1, as stated, fails where the backup path names the original: for
    the file [d/..jis] with the root [d/..jis] and the backup root [./d]
    the backup path is [./d/..jis], another spelling of the same file;
    opening the backup truncates the original, and the failed write leaves
    it empty. *)
Lemma backup_failure_truncates_alias :
  (backup_target (os_path := Sample.posix) "d/..jis" (Some "d/..jis")
     (Some "./d")).1 = "./d/..jis"
  /\ resolve (FileNames := Sample.names) "./d/..jis"
     = resolve (FileNames := Sample.names) "d/..jis"
  /\ Sample.one_file "d/..jis" !! resolve (FileNames := Sample.names) "d/..jis"
     = Some [Byte.xb1]
  /\ (backup_and_convert_to_utf8 (os_path := Sample.posix)
        (names := Sample.names)
        Sample.jisx0208 Sample.cp932ext Sample.no_other_codec
        Sample.encode_error_text (Sample.one_file "d/..jis")
        Sample.disk_full "d/..jis" (Some "d/..jis") (Some "./d") "shift_jis").1
     = (false, "backup error: [Errno 28] No space left on device")
  /\ (backup_and_convert_to_utf8 (os_path := Sample.posix)
        (names := Sample.names)
        Sample.jisx0208 Sample.cp932ext Sample.no_other_codec
        Sample.encode_error_text (Sample.one_file "d/..jis")
        Sample.disk_full "d/..jis" (Some "d/..jis") (Some "./d") "shift_jis").2
     !! resolve (FileNames := Sample.names) "d/..jis" = Some [].
Proof. repeat split; vm_compute; reflexivity. Qed.

Lemma success_keeps_backup_witness :
  (backup_and_convert_to_utf8 (os_path := Sample.posix) (names := Sample.names)
     Sample.jisx0208 Sample.cp932ext Sample.no_other_codec
     Sample.encode_error_text (Sample.one_file "src/A.java")
     Sample.no_faults "src/A.java" (Some "src") (Some "bk") "shift_jis").1
  = (true, "backed up to bk/A.java.jis and converted to UTF-8")
  /\ exists data,
       Sample.one_file "src/A.java"
         !! resolve (FileNames := Sample.names) "src/A.java" = Some data
       /\ (backup_and_convert_to_utf8 (os_path := Sample.posix)
             (names := Sample.names)
             Sample.jisx0208 Sample.cp932ext Sample.no_other_codec
             Sample.encode_error_text (Sample.one_file "src/A.java")
             Sample.no_faults "src/A.java" (Some "src") (Some "bk")
             "shift_jis").2
          !! resolve (FileNames := Sample.names) "bk/A.java.jis" = Some data.
Proof.
  split; [vm_compute; reflexivity|].
  refine (proj2 (@success_keeps_backup Sample.posix Sample.names
                   Sample.jisx0208 Sample.cp932ext Sample.no_other_codec
                   Sample.encode_error_text (Sample.one_file "src/A.java")
                   _ Sample.no_faults "src/A.java" (Some "src") (Some "bk")
                   "shift_jis"
                   "backed up to bk/A.java.jis and converted to UTF-8" _ _)).
  - vm_compute. discriminate.
  - vm_compute. reflexivity.
Defined.

(** C2, as stated, fails where the backup path names the original: for
    the file [d/..jis] with the root [d/..jis] and the backup root [./d]
    the conversion succeeds, and the file the backup path names holds the
    UTF-8 bytes, not the bytes the original held. *)
Lemma success_overwrites_alias_backup :
  (backup_target (os_path := Sample.posix) "d/..jis" (Some "d/..jis")
     (Some "./d")).1 = "./d/..jis"
  /\ Sample.one_file "d/..jis" !! resolve (FileNames := Sample.names) "d/..jis"
     = Some [Byte.xb1]
  /\ (backup_and_convert_to_utf8 (os_path := Sample.posix)
        (names := Sample.names)
        Sample.jisx0208 Sample.cp932ext Sample.no_other_codec
        Sample.encode_error_text (Sample.one_file "d/..jis")
        Sample.no_faults "d/..jis" (Some "d/..jis") (Some "./d") "shift_jis").1
     = (true, "backed up to ./d/..jis and converted to UTF-8")
  /\ (backup_and_convert_to_utf8 (os_path := Sample.posix)
        (names := Sample.names)
        Sample.jisx0208 Sample.cp932ext Sample.no_other_codec
        Sample.encode_error_text (Sample.one_file "d/..jis")
        Sample.no_faults "d/..jis" (Some "d/..jis") (Some "./d") "shift_jis").2
     !! resolve (FileNames := Sample.names) "./d/..jis"
     = Some [Byte.xef; Byte.xbd; Byte.xb1].
Proof. repeat split; vm_compute; reflexivity. Qed.

Lemma backup_path_derivation_witness :
  path_relpath (OsPath := Sample.posix) "src/pkg/A.java" "src"
    = Some "pkg/A.java"
  /\ (backup_target (os_path := Sample.posix) "src/pkg/A.java"
        (Some "src") (Some "bk")).1
     = path_join (OsPath := Sample.posix) "bk" "pkg/A.java" +:+ ".jis"
  /\ (backup_target (os_path := Sample.posix) "src/pkg/A.java" None None).1
     = "src/pkg/A.java" +:+ ".jis"
  /\ backup_target (os_path := Posix.os_path (Some "/w")) "/w/src/A.java"
       (Some "/w/src") (Some "bk")
     = backup_target (os_path := Posix.os_path (Some "/v")) "/w/src/A.java"
         (Some "/w/src") (Some "bk").
Proof.
  assert (Hrel : path_relpath (OsPath := Sample.posix) "src/pkg/A.java" "src"
                 = Some "pkg/A.java") by (vm_compute; reflexivity).
  split; [exact Hrel|].
  destruct (@backup_path_derivation Sample.posix
              "src/pkg/A.java" (Some "src") (Some "bk")) as (H1 & _).
  destruct (@backup_path_derivation Sample.posix
              "src/pkg/A.java" None None) as (_ & _ & H3 & _).
  destruct (@backup_path_derivation Sample.posix
              "/w/src/A.java" (Some "/w/src") (Some "bk")) as (_ & _ & _ & H4).
  split; [|split].
  - apply (H1 "bk" "src" "pkg/A.java");
      [reflexivity|reflexivity|discriminate|discriminate|exact Hrel].
  - apply H3. reflexivity.
  - apply H4. right. split; [reflexivity|]. by intros r [= <-].
Defined.

(** C9, as stated, fails: the same path, root and backup root give one
    backup path when the working directory is [/w] and another when it is
    [/v]; and where the working directory is gone, so that [relpath]
    raises, the backup path is built from the base name of the path. *)
Lemma backup_path_depends_on_cwd :
  (backup_target (os_path := Posix.os_path (Some "/w")) "src/A.java"
     (Some "/w/src") (Some "bk")).1 = "bk/A.java.jis"
  /\ (backup_target (os_path := Posix.os_path (Some "/v")) "src/A.java"
        (Some "/w/src") (Some "bk")).1 = "bk/../../v/src/A.java.jis"
  /\ Posix.relpath None "/d/A.java" "src" = None
  /\ (backup_target (os_path := Posix.os_path None) "/d/A.java"
        (Some "src") (Some "bk")).1 = "bk/A.java.jis".
Proof. repeat split; vm_compute; reflexivity. Qed.

Lemma decode_stage_never_fails_witness :
  is_Some (decode_loop Sample.jisx0208 Sample.cp932ext Sample.no_other_codec
             ["shift_jis"; "cp932"; "shift_jis"] [] [Byte.x87]).1
  /\ ((backup_and_convert_to_utf8 (os_path := Sample.posix) (names := Sample.names)
         Sample.jisx0208 Sample.cp932ext Sample.no_other_codec
         Sample.encode_error_text {[ "/w/A.java" := [Byte.x87] ]}
         Sample.no_faults "A.java" None None "shift_jis").1.1 = true
      \/ exists e,
           (backup_and_convert_to_utf8 (os_path := Sample.posix) (names := Sample.names)
              Sample.jisx0208 Sample.cp932ext Sample.no_other_codec
              Sample.encode_error_text {[ "/w/A.java" := [Byte.x87] ]}
              Sample.no_faults "A.java" None None "shift_jis").1.2
           = "write error: " +:+ e).
Proof.
  destruct (@decode_stage_never_fails Sample.posix Sample.names Sample.jisx0208
              Sample.cp932ext Sample.no_other_codec Sample.encode_error_text
              "shift_jis" [Byte.x87]) as (_ & _ & Hloop & Hconv).
  split; [exact Hloop|].
  apply (Hconv {[ "/w/A.java" := [Byte.x87] ]} Sample.no_faults "A.java" None None);
    vm_compute; reflexivity.
Defined.

Lemma circled_digit_is_replaced_witness :
  bytes_decode Sample.jisx0208 Sample.cp932ext Sample.no_other_codec
    "cp932" Codec.Strict [Byte.x87; Byte.x40] = Some [0x2460]
  /\ (backup_and_convert_to_utf8 (os_path := Sample.posix) (names := Sample.names)
        Sample.jisx0208 Sample.cp932ext Sample.no_other_codec
        Sample.encode_error_text {[ resolve (FileNames := Sample.names) "A.java"
                                    := [Byte.x87; Byte.x40] ]}
        Sample.no_faults "A.java" None None "shift_jis").2
     !! resolve (FileNames := Sample.names) "A.java"
     = Some [Byte.xef; Byte.xbf; Byte.xbd; Byte.x40].
Proof.
  destruct (@circled_digit_is_replaced Sample.posix Sample.names Sample.jisx0208
              Sample.cp932ext Sample.no_other_codec Sample.encode_error_text)
    as (_ & Hcp & _ & _ & Hfile); [reflexivity|reflexivity|].
  split; [exact Hcp|exact Hfile].
Defined.

(** * Further properties of the program *)

(** ** The decoders on plain and on malformed input *)

Lemma byte_of_val (b : byte) : byte_of_Z (byte_val b) = b.
Proof.
  unfold byte_of_Z, byte_val.
  pose proof (Byte.to_N_bounded b) as Hb.
  rewrite Z.mod_small by lia. rewrite N2Z.id. by rewrite Byte.of_to_N.
Qed.

Lemma shift_jis_step_ascii (jisx0208 : Z -> Z -> option Z) (c : Z)
    (next : option Z) :
  c < 0x80 -> Codec.shift_jis_step jisx0208 c next = Codec.Emit1 c.
Proof.
  intros Hc. unfold Codec.shift_jis_step.
  by destruct (Z.ltb_spec c 0x80); [|lia].
Qed.

Lemma cp932_step_ascii (jisx0208 cp932ext : Z -> Z -> option Z) (c : Z)
    (next : option Z) :
  c < 0x80 -> Codec.cp932_step jisx0208 cp932ext c next = Codec.Emit1 c.
Proof.
  intros Hc. unfold Codec.cp932_step.
  by destruct (Z.leb_spec c 0x80); [|lia].
Qed.

(** A decoder that passes ASCII through decodes an ASCII buffer to the
    code points of its bytes, under either error handler. *)
Lemma mbc_decode_ascii (step : Z -> option Z -> Codec.dec_step)
    (e : Codec.errors) (data : bytes) :
  (forall c next, c < 0x80 -> step c next = Codec.Emit1 c) ->
  ascii_bytes data ->
  Codec.mbc_decode step e data = Some (byte_val <$> data).
Proof.
  intros Hstep. induction 1 as [|b data Hb _ IH]; [reflexivity|].
  cbn [Codec.mbc_decode]. by rewrite (Hstep _ _ Hb), IH.
Qed.

Lemma utf8_encode_ascii (data : bytes) :
  ascii_bytes data -> utf8_encode (byte_val <$> data) = Some data.
Proof.
  induction 1 as [|b data Hb _ IH]; [reflexivity|].
  cbn [fmap list_fmap utf8_encode]. rewrite IH.
  unfold utf8_encode_char. pose proof (Byte.to_N_bounded b) as Hlo.
  destruct (Z.ltb_spec (byte_val b) 0); [unfold byte_val in *; lia|].
  destruct (Z.ltb_spec (byte_val b) 0x80); [|lia].
  by rewrite byte_of_val.
Qed.

Lemma mbc_decode_cons (step : Z -> option Z -> Codec.dec_step)
    (e : Codec.errors) (b : byte) (rest : bytes) :
  Codec.mbc_decode step e (b :: rest)
  = match step (byte_val b) (byte_val <$> head rest) with
    | Codec.Emit1 u => cons u <$> Codec.mbc_decode step e rest
    | Codec.Emit2 u =>
        match rest with
        | _ :: rest' => cons u <$> Codec.mbc_decode step e rest'
        | [] => None
        end
    | Codec.Illegal =>
        match e with
        | Codec.Strict => None
        | Codec.Replace =>
            cons Codec.REPLACEMENT_CHARACTER <$> Codec.mbc_decode step e rest
        end
    | Codec.TooFew =>
        match e with
        | Codec.Strict => None
        | Codec.Replace => Some [Codec.REPLACEMENT_CHARACTER]
        end
    end.
Proof. reflexivity. Qed.

(** What strict decoding accepts, replace-mode decoding decodes alike. *)
Lemma mbc_decode_strict_replace (step : Z -> option Z -> Codec.dec_step)
    (inp : bytes) (t : text) :
  Codec.mbc_decode step Codec.Strict inp = Some t ->
  Codec.mbc_decode step Codec.Replace inp = Some t.
Proof.
  revert t.
  enough ((forall t, Codec.mbc_decode step Codec.Strict inp = Some t ->
                     Codec.mbc_decode step Codec.Replace inp = Some t)
          /\ forall b t,
               Codec.mbc_decode step Codec.Strict (b :: inp) = Some t ->
               Codec.mbc_decode step Codec.Replace (b :: inp) = Some t)
    as [H _] by exact H.
  induction inp as [|a inp [IH0 IH1]].
  - split; [done|]. intros b t. cbn.
    destruct (step (byte_val b) None); done.
  - split; [apply IH1|]. intros b t.
    rewrite (mbc_decode_cons step Codec.Strict b),
      (mbc_decode_cons step Codec.Replace b).
    destruct (step (byte_val b) _); cbv iota; try done.
    + destruct (Codec.mbc_decode step Codec.Strict (a :: inp)) as [t'|] eqn:Hs;
        [by rewrite (IH1 a t' Hs)|discriminate].
    + destruct (Codec.mbc_decode step Codec.Strict inp) as [t'|] eqn:Hs;
        [by rewrite (IH0 t' eq_refl)|discriminate].
Qed.

(** What strict decoding rejects, replace-mode decoding marks with U+FFFD. *)
Lemma mbc_decode_replace_marks (step : Z -> option Z -> Codec.dec_step)
    (inp : bytes) :
  Codec.step_sound step ->
  Codec.mbc_decode step Codec.Strict inp = None ->
  exists t, Codec.mbc_decode step Codec.Replace inp = Some t
            /\ Codec.REPLACEMENT_CHARACTER ∈ t.
Proof.
  intros Hsound.
  enough ((Codec.mbc_decode step Codec.Strict inp = None ->
           exists t, Codec.mbc_decode step Codec.Replace inp = Some t
                     /\ Codec.REPLACEMENT_CHARACTER ∈ t)
          /\ forall b,
               Codec.mbc_decode step Codec.Strict (b :: inp) = None ->
               exists t, Codec.mbc_decode step Codec.Replace (b :: inp) = Some t
                         /\ Codec.REPLACEMENT_CHARACTER ∈ t)
    as [H _] by exact H.
  induction inp as [|a inp [IH0 IH1]].
  - split; [done|]. intros b. cbn.
    destruct (step (byte_val b) None) eqn:Hstep; cbn; try done.
    + exfalso. exact (Hsound _ _ Hstep).
    + intros _. eexists. split; [done|]. apply list_elem_of_here.
    + intros _. eexists. split; [done|]. apply list_elem_of_here.
  - split; [apply IH1|]. intros b.
    rewrite (mbc_decode_cons step Codec.Strict b),
      (mbc_decode_cons step Codec.Replace b).
    destruct (step (byte_val b) _); cbv iota.
    + destruct (Codec.mbc_decode step Codec.Strict (a :: inp)) eqn:Hs;
        [discriminate|].
      intros _. destruct (IH1 a Hs) as (t & -> & Ht).
      eexists. split; [done|]. by apply list_elem_of_further.
    + destruct (Codec.mbc_decode step Codec.Strict inp) eqn:Hs;
        [discriminate|].
      intros _. destruct (IH0 eq_refl) as (t & -> & Ht).
      eexists. split; [done|]. by apply list_elem_of_further.
    + intros _.
      destruct (mbc_decode_replace_total step (a :: inp) Hsound) as [t ->].
      eexists. split; [done|]. apply list_elem_of_here.
    + intros _. eexists. split; [done|]. apply list_elem_of_here.
Qed.

Section ProbeAndText.

Context {names : FileNames}.
Variable jisx0208 : Z -> Z -> option Z.
Variable cp932ext : Z -> Z -> option Z.
Variable other_decode : string -> Codec.errors -> bytes -> option text.

Local Abbreviation decode := (bytes_decode jisx0208 cp932ext other_decode).

Lemma decode_ascii (enc : string) (e : Codec.errors) (data : bytes) :
  enc = "shift_jis" \/ enc = "cp932" ->
  ascii_bytes data ->
  decode enc e data = Some (byte_val <$> data).
Proof.
  intros [-> | ->] Hdata; apply mbc_decode_ascii; try done.
  - intros c next. apply shift_jis_step_ascii.
  - intros c next. apply cp932_step_ascii.
Qed.

(** X1. The decode probe accepts every buffer of ASCII bytes, the empty
    one included; without chardet such a file is reported as Shift_JIS with
    confidence 1.0. *)
Theorem ascii_file_is_labelled_shift_jis (fs : gmap string bytes)
    (exn : option string) (path : string) (data : bytes) :
  FS.read fs exn path = inr data ->
  ascii_bytes data ->
  detect_shift_jis_bytes jisx0208 cp932ext other_decode data = true
  /\ analyze_file jisx0208 cp932ext other_decode None fs exn path
     = (path, "Shift_JIS", PrimFloat.one).
Proof.
  intros Hread Hdata.
  assert (Hprobe : detect_shift_jis_bytes jisx0208 cp932ext other_decode data
                   = true).
  { unfold detect_shift_jis_bytes.
    by rewrite (decode_ascii "shift_jis" Codec.Strict data (or_introl eq_refl)). }
  split; [exact Hprobe|].
  unfold analyze_file. by rewrite Hread, Hprobe.
Qed.

(** X2. With shift_jis as the source encoding, the text the decode stage
    hands on is the strict decoding of the bytes where that exists, and
    otherwise the replace-mode decoding, which then holds at least one
    U+FFFD. *)
Theorem shift_jis_text_is_strict_or_marked (data : bytes) :
  match decode "shift_jis" Codec.Strict data with
  | Some t =>
      (decode_loop jisx0208 cp932ext other_decode
         ["shift_jis"; "cp932"; "shift_jis"] [] data).1 = Some t
      /\ decode "shift_jis" Codec.Replace data = Some t
  | None =>
      exists t,
        (decode_loop jisx0208 cp932ext other_decode
           ["shift_jis"; "cp932"; "shift_jis"] [] data).1 = Some t
        /\ decode "shift_jis" Codec.Replace data = Some t
        /\ Codec.REPLACEMENT_CHARACTER ∈ t
  end.
Proof.
  rewrite (decode_loop_shift_jis jisx0208 cp932ext other_decode data).
  destruct (decode "shift_jis" Codec.Strict data) as [t|] eqn:Hs.
  - split; [reflexivity|]. by apply mbc_decode_strict_replace.
  - destruct (mbc_decode_replace_marks (Codec.shift_jis_step jisx0208) data
                (shift_jis_step_sound jisx0208) Hs) as (t & Ht & Hin).
    change (decode "shift_jis" Codec.Replace data = Some t) in Ht.
    exists t. by rewrite Ht.
Qed.

End ProbeAndText.

Lemma ascii_file_is_labelled_shift_jis_witness :
  analyze_file (names := Sample.names) Sample.jisx0208 Sample.cp932ext Sample.no_other_codec None
    {[ "/w/A.java" := [Byte.x69; Byte.x6e; Byte.x74] ]} None "A.java"
  = ("A.java", "Shift_JIS", PrimFloat.one).
Proof.
  refine (proj2 (ascii_file_is_labelled_shift_jis (names := Sample.names) Sample.jisx0208
                   Sample.cp932ext Sample.no_other_codec
                   {[ "/w/A.java" := [Byte.x69; Byte.x6e; Byte.x74] ]} None
                   "A.java" [Byte.x69; Byte.x6e; Byte.x74] _ _)).
  - vm_compute. reflexivity.
  - repeat constructor.
Defined.

(** ** What a conversion leaves behind *)

Lemma read_inr_truthy {names : FileNames} (fs : gmap string bytes) (exn : option string)
    (path : string) (data : bytes) :
  FS.read fs exn path = inr data -> PyStr.truthy path = true.
Proof.
  unfold FS.read. destruct exn; [discriminate|].
  by destruct (PyStr.truthy path).
Qed.

Lemma truthy_append_jis (stem : string) : PyStr.truthy (stem +:+ ".jis") = true.
Proof. by destruct stem. Qed.

Lemma write_ok {names : FileNames} (fs : gmap string bytes) (path : string) (data : bytes) :
  PyStr.truthy path = true ->
  FS.write fs FS.WriteOk path data = (None, <[resolve path := data]> fs).
Proof. intros H. unfold FS.write. by rewrite H. Qed.

Section ConversionOutcome.

Context {os_path : OsPath} {names : FileNames}.
Variable jisx0208 : Z -> Z -> option Z.
Variable cp932ext : Z -> Z -> option Z.
Variable other_decode : string -> Codec.errors -> bytes -> option text.
Variable encode_error_text : text -> string.

Local Abbreviation convert :=
  (backup_and_convert_to_utf8 jisx0208 cp932ext other_decode encode_error_text).
Local Abbreviation decode := (bytes_decode jisx0208 cp932ext other_decode).

Lemma backup_target_truthy (path : string) (root backup_root : option string) :
  PyStr.truthy (backup_target path root backup_root).1 = true.
Proof.
  destruct (backup_target_jis path root backup_root) as [stem ->].
  apply truthy_append_jis.
Qed.

(** The state a successful call leaves: the backup written first, the
    original overwritten second. *)
Lemma convert_success_state (fs fs' : gmap string bytes) (io : conv_faults)
    (path : string) (root backup_root : option string)
    (src_encoding msg : string) :
  convert fs io path root backup_root src_encoding = ((true, msg), fs') ->
  exists data t out,
    fs !! resolve path = Some data
    /\ (decode_loop jisx0208 cp932ext other_decode
          [src_encoding; "cp932"; "shift_jis"] [] data).1 = Some t
    /\ utf8_encode t = Some out
    /\ fs' = <[resolve path := out]>
               (<[resolve (backup_target path root backup_root).1 := data]>
                  fs).
Proof.
  unfold backup_and_convert_to_utf8.
  destruct (FS.read fs (read_exn io) path) as [e|data] eqn:Hread;
    [discriminate|].
  apply read_inr in Hread.
  destruct (backup_target path root backup_root) as [bf bd]. cbn [fst snd].
  destruct (makedirs io bd) as [e|]; [discriminate|].
  pose proof (write_done fs (backup_outcome io) bf data) as Hw1.
  destruct (FS.write fs (backup_outcome io) bf data) as [[e|] fs1];
    [discriminate|].
  destruct (Hw1 eq_refl) as [_ Hfs1]. cbn in Hfs1. subst fs1.
  destruct (decode_loop _ _ _ _ _ data).1 as [t|] eqn:Hloop; [|discriminate].
  destruct (utf8_encode t) as [out|] eqn:Henc; [|discriminate].
  pose proof (write_done (<[resolve bf:=data]> fs) (overwrite_outcome io)
                path out) as Hw2.
  destruct (FS.write (<[resolve bf:=data]> fs) (overwrite_outcome io) path out)
    as [[e|] fs2]; [discriminate|].
  destruct (Hw2 eq_refl) as [_ Hfs2]. cbn in Hfs2. subst fs2.
  intros [= _ <-]. by exists data, t, out.
Qed.

(** X3. Converting a file of ASCII bytes from shift_jis or cp932, when no
    I/O call fails, succeeds and leaves the file with the bytes it had; the
    backup holds the same bytes. *)
Theorem ascii_file_is_unchanged (fs : gmap string bytes) (io : conv_faults)
    (path : string) (root backup_root : option string)
    (src_encoding : string) (data : bytes) :
  FS.read fs (read_exn io) path = inr data ->
  ascii_bytes data ->
  src_encoding = "shift_jis" \/ src_encoding = "cp932" ->
  makedirs io (backup_target path root backup_root).2 = None ->
  backup_outcome io = FS.WriteOk ->
  overwrite_outcome io = FS.WriteOk ->
  (convert fs io path root backup_root src_encoding).1.1 = true
  /\ (convert fs io path root backup_root src_encoding).2 !! resolve path
     = Some data
  /\ (convert fs io path root backup_root src_encoding).2
       !! resolve (backup_target path root backup_root).1 = Some data.
Proof.
  intros Hread Hdata Henc Hmk Hb Ho.
  pose proof (backup_target_truthy path root backup_root) as Hbf.
  unfold backup_and_convert_to_utf8. rewrite Hread.
  destruct (backup_target path root backup_root) as [bf bd]. cbn [fst snd] in *.
  rewrite Hmk, Hb, (write_ok _ _ _ Hbf).
  assert (Hloop : (decode_loop jisx0208 cp932ext other_decode
                     [src_encoding; "cp932"; "shift_jis"] [] data).1
                  = Some (byte_val <$> data)).
  { cbn -[bytes_decode String.eqb].
    by rewrite (decode_ascii jisx0208 cp932ext other_decode src_encoding
                  Codec.Strict data Henc Hdata). }
  rewrite Hloop, (utf8_encode_ascii data Hdata), Ho,
    (write_ok _ _ _ (read_inr_truthy _ _ _ _ Hread)).
  cbn [fst snd]. split; [done|]. split; [by rewrite lookup_insert_eq|].
  rewrite lookup_insert. case_decide; [done|]. by rewrite lookup_insert_eq.
Qed.

(** X4. Whatever its outcome, a call changes no file other than the one
    its path names and the one the backup path names. *)
Theorem convert_touches_two_files (fs : gmap string bytes) (io : conv_faults)
    (path : string) (root backup_root : option string)
    (src_encoding q : string) :
  q <> resolve path ->
  q <> resolve (backup_target path root backup_root).1 ->
  (convert fs io path root backup_root src_encoding).2 !! q = fs !! q.
Proof.
  intros Hq Hqb. unfold backup_and_convert_to_utf8.
  destruct (FS.read fs (read_exn io) path) as [e|data]; [done|].
  destruct (backup_target path root backup_root) as [bf bd]. cbn [fst snd] in *.
  destruct (makedirs io bd) as [e|]; [done|].
  pose proof (write_frame fs (backup_outcome io) bf data q Hqb) as Hf1.
  destruct (FS.write fs (backup_outcome io) bf data) as [[e|] fs1];
    cbn [fst snd] in *; [done|].
  destruct (decode_loop _ _ _ _ _ data).1 as [t|]; [|done].
  destruct (utf8_encode t) as [out|]; [|done].
  pose proof (write_frame fs1 (overwrite_outcome io) path out q Hq) as Hf2.
  destruct (FS.write fs1 (overwrite_outcome io) path out) as [[e|] fs2];
    cbn [fst snd] in *; congruence.
Qed.

(** X5. Once the backup has been written, it holds the bytes read from the
    original at the end of the call, whether the call then succeeds or
    fails in the overwrite, provided the backup path does not name the
    file the path of the original names (under any spelling or link). *)
Theorem written_backup_survives (fs : gmap string bytes) (io : conv_faults)
    (path : string) (root backup_root : option string)
    (src_encoding : string) (data : bytes) :
  FS.read fs (read_exn io) path = inr data ->
  makedirs io (backup_target path root backup_root).2 = None ->
  (FS.write fs (backup_outcome io)
     (backup_target path root backup_root).1 data).1 = None ->
  resolve (backup_target path root backup_root).1 <> resolve path ->
  (convert fs io path root backup_root src_encoding).2
    !! resolve (backup_target path root backup_root).1 = Some data.
Proof.
  intros Hread Hmk Hw Hne. unfold backup_and_convert_to_utf8. rewrite Hread.
  destruct (backup_target path root backup_root) as [bf bd]. cbn [fst snd] in *.
  rewrite Hmk.
  destruct (write_done fs (backup_outcome io) bf data Hw) as [_ Hfs1].
  destruct (FS.write fs (backup_outcome io) bf data) as [[e|] fs1];
    [discriminate Hw|]. cbn [snd] in Hfs1. subst fs1.
  destruct (decode_loop _ _ _ _ _ data).1 as [t|];
    [|by cbn; rewrite lookup_insert_eq].
  destruct (utf8_encode t) as [out|]; [|by cbn; rewrite lookup_insert_eq].
  pose proof (write_frame (<[resolve bf:=data]> fs) (overwrite_outcome io)
                path out (resolve bf) Hne) as Hf.
  destruct (FS.write (<[resolve bf:=data]> fs) (overwrite_outcome io) path out)
    as [[e|] fs2]; cbn [fst snd] in *; by rewrite Hf, lookup_insert_eq.
Qed.

(** X6. After a successful call the original file holds the UTF-8 encoding
    of the text the decode stage produced from the bytes it held before. *)
Theorem success_writes_utf8_of_text (fs fs' : gmap string bytes)
    (io : conv_faults) (path : string) (root backup_root : option string)
    (src_encoding msg : string) :
  convert fs io path root backup_root src_encoding = ((true, msg), fs') ->
  exists data t out,
    fs !! resolve path = Some data
    /\ (decode_loop jisx0208 cp932ext other_decode
          [src_encoding; "cp932"; "shift_jis"] [] data).1 = Some t
    /\ utf8_encode t = Some out
    /\ fs' !! resolve path = Some out.
Proof.
  intros (data & t & out & Hdata & Ht & Hout & ->)%convert_success_state.
  exists data, t, out. by rewrite lookup_insert_eq.
Qed.

(** X7. A second successful conversion of the same file replaces the
    backup: where the backup path does not name the file the path of the
    original names, the backup holds after it the UTF-8 bytes the first
    conversion wrote, not the bytes the file held at the start. *)
Theorem second_run_replaces_backup (fs fs1 fs2 : gmap string bytes)
    (io1 io2 : conv_faults) (path : string)
    (root backup_root : option string) (enc1 enc2 msg1 msg2 : string) :
  resolve (backup_target path root backup_root).1 <> resolve path ->
  convert fs io1 path root backup_root enc1 = ((true, msg1), fs1) ->
  convert fs1 io2 path root backup_root enc2 = ((true, msg2), fs2) ->
  exists data t out,
    fs !! resolve path = Some data
    /\ (decode_loop jisx0208 cp932ext other_decode
          [enc1; "cp932"; "shift_jis"] [] data).1 = Some t
    /\ utf8_encode t = Some out
    /\ fs2 !! resolve (backup_target path root backup_root).1 = Some out.
Proof.
  intros Hne
    (data & t & out & Hdata & Ht & Hout & ->)%convert_success_state
    (data' & t' & out' & Hdata' & _ & _ & ->)%convert_success_state.
  rewrite lookup_insert_eq in Hdata'. injection Hdata' as <-.
  exists data, t, out. repeat (split; [done|]).
  rewrite lookup_insert_ne by done. by rewrite lookup_insert_eq.
Qed.

End ConversionOutcome.

(** ** The scan *)

Lemma append_assoc (a b c : string) : (a +:+ b) +:+ c = a +:+ (b +:+ c).
Proof.
  induction a as [|x a IH]; [reflexivity|].
  change (String x ((a +:+ b) +:+ c) = String x (a +:+ (b +:+ c))).
  by rewrite IH.
Qed.

Lemma rev_app_acc (s acc : string) :
  String.rev_app s acc = String.rev_app s "" +:+ acc.
Proof.
  revert acc. induction s as [|c s IH]; intros acc; [reflexivity|].
  cbn [String.rev_app]. rewrite (IH (String c acc)), (IH (String c "")).
  by rewrite append_assoc.
Qed.

Lemma prefix_append (p s t : string) :
  String.prefix p s = true -> String.prefix p (s +:+ t) = true.
Proof.
  revert s. induction p as [|c p IH]; intros s;
    [by destruct (s +:+ t)|].
  destruct s as [|d s]; [discriminate|].
  change (String d s +:+ t) with (String d (s +:+ t)). cbn [String.prefix].
  destruct (ascii_dec c d); [apply IH|done].
Qed.

(** A name with a Java suffix keeps it behind any prefix. *)
Lemma is_java_file_append (pre fn : string) :
  is_java_file fn = true -> is_java_file (pre +:+ fn) = true.
Proof.
  unfold is_java_file, PyStr.endswith, String.rev. intros Hfn.
  rewrite lower_append, rev_app_append,
    (rev_app_acc (PyStr.lower fn) (String.rev_app (PyStr.lower pre) "")).
  by apply prefix_append.
Qed.

Lemma posix_join_suffix (a b : string) : exists pre, Posix.join a b = pre +:+ b.
Proof.
  unfold Posix.join. repeat case_match.
  - by exists "".
  - by exists a.
  - exists (a +:+ "/"). by rewrite append_assoc.
Qed.

Lemma analyze_file_path {names : FileNames} (jisx0208 cp932ext : Z -> Z -> option Z)
    (other_decode : string -> Codec.errors -> bytes -> option text)
    (chardet : option (bytes -> detection)) (fs : gmap string bytes)
    (exn : option string) (path : string) :
  (analyze_file jisx0208 cp932ext other_decode chardet fs exn path).1.1 = path.
Proof.
  unfold analyze_file. destruct (FS.read fs exn path); [done|].
  destruct chardet; [|done].
  destruct (detect_with_chardet _ _); repeat case_match; done.
Qed.

Section ScanFacts.

Context {names : FileNames}.
Variable cwd : option string.
Variable jisx0208 : Z -> Z -> option Z.
Variable cp932ext : Z -> Z -> option Z.
Variable other_decode : string -> Codec.errors -> bytes -> option text.
Variable encode_error_text : text -> string.
Variable chardet : option (bytes -> detection).
Variable os_walk : string -> list walk_entry.
Variable path_exists : string -> bool.

Local Abbreviation files_of :=
  (iter_java_files (os_path := Posix.os_path cwd) os_walk).
Local Abbreviation process :=
  (process_file (os_path := Posix.os_path cwd) jisx0208 cp932ext other_decode
     encode_error_text chardet).
Local Abbreviation loop :=
  (main_loop (os_path := Posix.os_path cwd) jisx0208 cp932ext other_decode
     encode_error_text chardet).
Local Abbreviation run :=
  (main (os_path := Posix.os_path cwd) jisx0208 cp932ext other_decode
     encode_error_text chardet os_walk path_exists).
Local Abbreviation backup_of :=
  (fun (root : string) (backup_dir : option string) (fp : string) =>
     (backup_target (os_path := Posix.os_path cwd) fp
        (if PyStr.truthy_opt backup_dir then Some root else None)
        backup_dir).1).

Lemma iter_java_files_spec (root p : string) :
  In p (files_of root)
  <-> exists dirpath dirnames filenames fn,
        In (dirpath, dirnames, filenames) (os_walk root)
        /\ In fn filenames
        /\ is_java_file fn = true
        /\ p = Posix.join dirpath fn.
Proof.
  unfold iter_java_files. rewrite in_flat_map. split.
  - intros ([[d ds] fns] & Hin & Hp).
    apply in_map_iff in Hp as (fn & <- & Hfn).
    apply filter_In in Hfn as [Hfn Hjava]. by exists d, ds, fns, fn.
  - intros (d & ds & fns & fn & Hin & Hfn & Hjava & ->).
    exists (d, ds, fns). split; [done|].
    apply in_map_iff. exists fn. split; [done|]. by apply filter_In.
Qed.

Lemma iter_java_files_java (root p : string) :
  In p (files_of root) -> is_java_file p = true.
Proof.
  intros (d & ds & fns & fn & _ & _ & Hjava & ->)%iter_java_files_spec.
  destruct (posix_join_suffix d fn) as [pre ->].
  by apply is_java_file_append.
Qed.

(** X8. The scan yields exactly the paths [join(dirpath, fn)] for the file
    names [fn] of the walk whose lower-cased form ends in [.java]; every
    path it yields ends in that suffix itself, and none is its own backup
    path. *)
Theorem iter_java_files_yields (root p : string) :
  (In p (files_of root)
   <-> exists dirpath dirnames filenames fn,
         In (dirpath, dirnames, filenames) (os_walk root)
         /\ In fn filenames
         /\ is_java_file fn = true
         /\ p = Posix.join dirpath fn)
  /\ (In p (files_of root) ->
      is_java_file p = true
      /\ forall backup_dir, backup_of root backup_dir p <> p).
Proof.
  split; [apply iter_java_files_spec|].
  intros Hp%iter_java_files_java. split; [done|].
  intros backup_dir. by apply java_path_not_its_backup.
Qed.

End ScanFacts.

Section ProcessFacts.

Context {os_path : OsPath} {names : FileNames}.
Variable jisx0208 : Z -> Z -> option Z.
Variable cp932ext : Z -> Z -> option Z.
Variable other_decode : string -> Codec.errors -> bytes -> option text.
Variable encode_error_text : text -> string.
Variable chardet : option (bytes -> detection).

Local Abbreviation process :=
  (process_file jisx0208 cp932ext other_decode encode_error_text).


(** Processing a file changes no file other than it and its backup. *)
Lemma process_file_frame (fs : gmap string bytes) (do_convert : bool)
    (root : string) (backup_dir : option string) (analyze_exn : option string)
    (io : conv_faults) (fp q : string) :
  q <> resolve fp ->
  q <> resolve (backup_target fp
                  (if PyStr.truthy_opt backup_dir then Some root else None)
                  backup_dir).1 ->
  (process chardet fs do_convert root backup_dir analyze_exn io fp).2 !! q
  = fs !! q.
Proof.
  intros Hq Hqb. unfold process_file.
  pose proof (analyze_file_path jisx0208 cp932ext other_decode chardet fs
                analyze_exn fp) as Hpath.
  destruct (analyze_file _ _ _ _ fs analyze_exn fp) as [[path result] conf].
  cbn in Hpath. subst path.
  destruct (do_convert && convertible result); [|done].
  unfold backup_and_convert_to_utf8.
  destruct (FS.read fs (read_exn io) fp) as [e|data]; [done|].
  destruct (backup_target fp _ backup_dir) as [bf bd]. cbn [fst snd] in *.
  destruct (makedirs io bd) as [e|]; [done|].
  pose proof (write_frame fs (backup_outcome io) bf data q Hqb) as Hf1.
  destruct (FS.write fs (backup_outcome io) bf data) as [[e|] fs1];
    cbn [fst snd] in *; [done|].
  destruct (decode_loop _ _ _ _ _ data).1 as [t|]; [|done].
  destruct (utf8_encode t) as [out|]; [|done].
  pose proof (write_frame fs1 (overwrite_outcome io) fp out q Hq) as Hf2.
  destruct (FS.write fs1 (overwrite_outcome io) fp out) as [[e|] fs2];
    cbn [fst snd] in *; congruence.
Qed.

(** Where a row reports the backup, the file the backup path names holds
    the bytes the original held, unless both paths name one file. *)
Lemma process_file_backup (fs : gmap string bytes) (do_convert : bool)
    (root : string) (backup_dir : option string) (analyze_exn : option string)
    (io : conv_faults) (fp : string) :
  resolve (backup_target fp
             (if PyStr.truthy_opt backup_dir then Some root else None)
             backup_dir).1 <> resolve fp ->
  row_action (process chardet fs do_convert root backup_dir analyze_exn io fp).1
    = Some ("backed up to "
            +:+ (backup_target fp
                   (if PyStr.truthy_opt backup_dir then Some root else None)
                   backup_dir).1
            +:+ " and converted to UTF-8") ->
  exists data,
    fs !! resolve fp = Some data
    /\ (process chardet fs do_convert root backup_dir analyze_exn io fp).2
         !! resolve (backup_target fp
                       (if PyStr.truthy_opt backup_dir then Some root else None)
                       backup_dir).1 = Some data.
Proof.
  intros Hne. unfold process_file.
  pose proof (analyze_file_path jisx0208 cp932ext other_decode chardet fs
                analyze_exn fp) as Hpath.
  destruct (analyze_file _ _ _ _ fs analyze_exn fp) as [[path result] conf].
  cbn in Hpath. subst path.
  destruct (do_convert && convertible result); [|discriminate].
  destruct (backup_and_convert_to_utf8 _ _ _ _ fs io fp _ backup_dir _)
    as [[[|] msg] fs'] eqn:Hconv; cbn [fst snd row_action];
    [|discriminate].
  intros _.
  apply convert_success_state in Hconv
    as (data & t & out & Hdata & _ & _ & ->).
  exists data. split; [done|].
  rewrite lookup_insert_ne by done. by rewrite lookup_insert_eq.
Qed.

(** X12. Without chardet both labels of a readable file contain the
    substring Shift_JIS, so with [--convert] a conversion is attempted for
    every readable file, those the decode probe rejected included. *)
Theorem without_chardet_every_file_is_converted (fs : gmap string bytes)
    (root : string) (backup_dir : option string)
    (analyze_exn : option string) (io : conv_faults) (fp : string)
    (data : bytes) :
  FS.read fs analyze_exn fp = inr data ->
  row_result (process None fs true root backup_dir analyze_exn io fp).1
    = (if detect_shift_jis_bytes jisx0208 cp932ext other_decode data
       then "Shift_JIS" else "not Shift_JIS")
  /\ is_Some (row_action
                (process None fs true root backup_dir analyze_exn io fp).1).
Proof.
  intros Hread. unfold process_file, analyze_file. rewrite Hread.
  destruct (detect_shift_jis_bytes _ _ _ data); cbn -[backup_and_convert_to_utf8];
    destruct (backup_and_convert_to_utf8 _ _ _ _ _ _ _ _ _ _) as [[ok msg] fs'];
    cbn; eauto.
Qed.

End ProcessFacts.

Lemma without_chardet_every_file_is_converted_witness :
  row_result
    (process_file (os_path := Sample.posix) (names := Sample.names) Sample.jisx0208 Sample.cp932ext
       Sample.no_other_codec Sample.encode_error_text None Sample.tree true
       "src" None None Sample.no_faults "src/pkg/B.JAVA").1
  = "not Shift_JIS"
  /\ is_Some
       (row_action
          (process_file (os_path := Sample.posix) (names := Sample.names) Sample.jisx0208
             Sample.cp932ext Sample.no_other_codec Sample.encode_error_text
             None Sample.tree true "src" None None Sample.no_faults
             "src/pkg/B.JAVA").1).
Proof.
  apply (@without_chardet_every_file_is_converted Sample.posix Sample.names
           Sample.jisx0208 Sample.cp932ext Sample.no_other_codec
           Sample.encode_error_text Sample.tree "src" None None
           Sample.no_faults "src/pkg/B.JAVA" [Byte.x87]).
  vm_compute. reflexivity.
Defined.

Section MainFacts.

Context {names : FileNames}.
Variable cwd : option string.
Variable jisx0208 : Z -> Z -> option Z.
Variable cp932ext : Z -> Z -> option Z.
Variable other_decode : string -> Codec.errors -> bytes -> option text.
Variable encode_error_text : text -> string.
Variable chardet : option (bytes -> detection).
Variable os_walk : string -> list walk_entry.
Variable path_exists : string -> bool.

Local Abbreviation files_of :=
  (iter_java_files (os_path := Posix.os_path cwd) os_walk).
Local Abbreviation process :=
  (process_file (os_path := Posix.os_path cwd) jisx0208 cp932ext other_decode
     encode_error_text chardet).
Local Abbreviation loop :=
  (main_loop (os_path := Posix.os_path cwd) jisx0208 cp932ext other_decode
     encode_error_text chardet).
Local Abbreviation run :=
  (main (os_path := Posix.os_path cwd) jisx0208 cp932ext other_decode
     encode_error_text chardet os_walk path_exists).
Local Abbreviation backup_of :=
  (fun (root : string) (backup_dir : option string) (fp : string) =>
     (backup_target (os_path := Posix.os_path cwd) fp
        (if PyStr.truthy_opt backup_dir then Some root else None)
        backup_dir).1).

Lemma main_loop_cons (fs : gmap string bytes) (do_convert : bool)
    (root : string) (backup_dir : option string)
    (faults : nat -> option string * conv_faults) (i : nat) (fp : string)
    (rest : list string) :
  loop fs do_convert root backup_dir faults i (fp :: rest)
  = (print_row
       (process fs do_convert root backup_dir (faults i).1 (faults i).2 fp).1
     ++ (loop (process fs do_convert root backup_dir (faults i).1
                 (faults i).2 fp).2
           do_convert root backup_dir faults (S i) rest).1,
     (loop (process fs do_convert root backup_dir (faults i).1
              (faults i).2 fp).2
        do_convert root backup_dir faults (S i) rest).2).
Proof.
  cbn [main_loop].
  destruct (process_file _ _ _ _ _ fs do_convert root backup_dir _ _ fp)
    as [row fs1]. cbn [fst snd].
  by destruct (main_loop _ _ _ _ _ fs1 do_convert root backup_dir faults
                 (S i) rest).
Qed.


Lemma main_loop_frame (fs : gmap string bytes) (do_convert : bool)
    (root : string) (backup_dir : option string)
    (faults : nat -> option string * conv_faults) (i : nat)
    (files : list string) (q : string) :
  (forall fp, In fp files ->
              q <> resolve fp /\ q <> resolve (backup_of root backup_dir fp)) ->
  (loop fs do_convert root backup_dir faults i files).2 !! q = fs !! q.
Proof.
  revert fs i. induction files as [|fp rest IH]; intros fs i Hq; [done|].
  rewrite main_loop_cons. cbn [fst snd].
  rewrite IH by (intros fp' Hin; apply Hq; by right).
  destruct (Hq fp (or_introl eq_refl)) as [Hne Hneb].
  by apply process_file_frame.
Qed.



(** X11. With or without [--convert], [main] changes no file other than
    those that the paths of the Java files the scan found name, and those
    that the backup paths derived for them name. *)
Theorem main_touches_scanned_files_only (fs : gmap string bytes)
    (faults : nat -> option string * conv_faults) (a : args) (q : string) :
  (forall fp, In fp (files_of (arg_path a)) ->
              q <> resolve fp
              /\ q <> resolve (backup_of (arg_path a) (arg_backup_dir a) fp)) ->
  (run fs faults a).2 !! q = fs !! q.
Proof.
  intros Hq. unfold main.
  destruct (path_exists (arg_path a)); cbn [negb]; [|done].
  destruct (iter_java_files os_walk (arg_path a)) as [|fp rest] eqn:Hfiles;
    [done|].
  pose proof (main_loop_frame fs (arg_convert a) (arg_path a)
                (arg_backup_dir a) faults 0%nat (fp :: rest) q Hq) as Hframe.
  by destruct (main_loop _ _ _ _ _ fs _ _ _ faults 0%nat (fp :: rest)).
Qed.

End MainFacts.

(** ** Lexical resolution keeps the end of a name *)

Lemma rev_snoc (a : string) (c : ascii) :
  String.rev (a +:+ String c "") = String c (String.rev a).
Proof. unfold String.rev. by rewrite rev_app_append. Qed.

Lemma snoc_inj (a b : string) (c d : ascii) :
  a +:+ String c "" = b +:+ String d "" -> c = d.
Proof.
  intros H%(f_equal String.rev). rewrite !rev_snoc in H. by injection H.
Qed.

Lemma string_snoc (s : string) : s <> "" -> exists a c, s = a +:+ String c "".
Proof.
  induction s as [|x s IH]; [done|]. intros _.
  destruct s as [|y s].
  - by exists "", x.
  - destruct IH as (a & c & ->); [done|]. by exists (String x a), c.
Qed.

(** A Java file name ends in [a] or [A]. *)
Lemma java_file_end (p : string) :
  is_java_file p = true ->
  exists a c, p = a +:+ String c "" /\ PyStr.lower_ascii c = "a"%char.
Proof.
  intros Hj. destruct (string_snoc p) as (a & c & ->); [by intros ->|].
  exists a, c. split; [done|].
  unfold is_java_file, PyStr.endswith in Hj.
  rewrite lower_append in Hj. cbn [PyStr.lower] in Hj. rewrite rev_snoc in Hj.
  change (String.rev ".java") with "avaj." in Hj. cbn [String.prefix] in Hj.
  by destruct (ascii_dec "a" (PyStr.lower_ascii c)) as [<-|].
Qed.

Lemma split_snoc (a : string) (c : ascii) :
  c <> "/"%char ->
  exists init l,
    PyStr.split Posix.sep (a +:+ String c "") = init ++ [l +:+ String c ""].
Proof.
  intros Hc. induction a as [|x a (init & l & IH)].
  - exists [], "". change ("" +:+ String c "") with (String c "").
    cbn [PyStr.split]. by destruct (Ascii.eqb_spec c Posix.sep).
  - change (String x a +:+ String c "") with (String x (a +:+ String c "")).
    cbn [PyStr.split]. rewrite IH. destruct (Ascii.eqb x Posix.sep).
    + by exists ("" :: init), l.
    + destruct init as [|h t]; cbn.
      * by exists [], (String x l).
      * by exists (String x h :: t), l.
Qed.

Lemma join_snoc (sep : string) (xs : list string) (w : string) :
  exists pre, PyStr.join sep (xs ++ [w]) = pre +:+ w.
Proof.
  induction xs as [|x xs [pre IH]]; [by exists ""|].
  cbn [app PyStr.join]. destruct (xs ++ [w]) eqn:E; [by destruct xs|].
  rewrite IH. exists (x +:+ sep +:+ pre). by rewrite !append_assoc.
Qed.

(** [normpath] keeps a component that is no dot name. *)
Lemma normpath_step_name (n : nat) (comps : list string) (l : string)
    (c : ascii) :
  c <> "."%char ->
  Posix.normpath_step n comps (l +:+ String c "") = comps ++ [l +:+ String c ""].
Proof.
  intros Hc. unfold Posix.normpath_step.
  assert (H0 : String.eqb (l +:+ String c "") "" = false) by (by destruct l).
  assert (H1 : String.eqb (l +:+ String c "") "." = false).
  { apply String.eqb_neq. intros H. apply Hc. by apply (snoc_inj l "" c "."). }
  assert (H2 : String.eqb (l +:+ String c "") ".." = false).
  { apply String.eqb_neq. intros H. apply Hc. by apply (snoc_inj l "." c "."). }
  by rewrite H0, H1, H2.
Qed.

Lemma normpath_keeps_end (q : string) (c : ascii) :
  c <> "/"%char -> c <> "."%char ->
  exists b, Posix.normpath (q +:+ String c "") = b +:+ String c "".
Proof.
  intros Hs Hd. unfold Posix.normpath.
  assert (Ht : PyStr.truthy (q +:+ String c "") = true) by (by destruct q).
  rewrite Ht. cbn [negb].
  destruct (split_snoc q c Hs) as (init & l & ->).
  set (n := if String.prefix "/" _ then _ else _).
  rewrite fold_left_app. cbn [fold_left].
  rewrite normpath_step_name by done.
  destruct (join_snoc "/" (fold_left (Posix.normpath_step n) init [])
              (l +:+ String c "")) as [pre ->].
  exists (PyStr.join "" (repeat "/" n) +:+ pre +:+ l).
  rewrite <- !append_assoc.
  by destruct (((PyStr.join "" (repeat "/" n) +:+ pre) +:+ l)).
Qed.

Lemma posix_resolve_keeps_end (dir a : string) (c : ascii) :
  c <> "/"%char -> c <> "."%char ->
  exists b,
    resolve (FileNames := Posix.names dir) (a +:+ String c "")
    = b +:+ String c "".
Proof.
  intros Hs Hd. cbn [resolve Posix.names].
  destruct (posix_join_suffix dir (a +:+ String c "")) as [pre ->].
  rewrite <- append_assoc. by apply normpath_keeps_end.
Qed.

(** In a tree without links the backup of a Java file is another file
    than the Java file, however the two paths are spelled. *)
Lemma java_file_not_its_backup {os_path : OsPath} (dir path : string)
    (root backup_root : option string) :
  is_java_file path = true ->
  resolve (FileNames := Posix.names dir) (backup_target path root backup_root).1
  <> resolve (FileNames := Posix.names dir) path.
Proof.
  intros Hjava Heq.
  destruct (backup_target_jis path root backup_root) as [stem Hstem].
  apply java_file_end in Hjava as (a & c & -> & Hc).
  rewrite Hstem in Heq.
  change ".jis" with (".ji" +:+ "s") in Heq. rewrite <- append_assoc in Heq.
  destruct (posix_resolve_keeps_end dir (stem +:+ ".ji") "s") as [b1 H1];
    [done|done|].
  destruct (posix_resolve_keeps_end dir a c) as [b2 H2];
    [by intros ->|by intros ->|].
  rewrite H1, H2 in Heq. apply snoc_inj in Heq. by subst c.
Qed.

Section ScannedBackup.

Variable cwd : option string.
Variable dir : string.
Variable jisx0208 : Z -> Z -> option Z.
Variable cp932ext : Z -> Z -> option Z.
Variable other_decode : string -> Codec.errors -> bytes -> option text.
Variable encode_error_text : text -> string.
Variable chardet : option (bytes -> detection).
Variable os_walk : string -> list walk_entry.

Local Abbreviation files_of :=
  (iter_java_files (os_path := Posix.os_path cwd) os_walk).
Local Abbreviation process :=
  (process_file (os_path := Posix.os_path cwd) (names := Posix.names dir)
     jisx0208 cp932ext other_decode encode_error_text chardet).
Local Abbreviation backup_of :=
  (fun (root : string) (backup_dir : option string) (fp : string) =>
     (backup_target (os_path := Posix.os_path cwd) fp
        (if PyStr.truthy_opt backup_dir then Some root else None)
        backup_dir).1).
Local Abbreviation file_of := (resolve (FileNames := Posix.names dir)).

(** X13. For a file the scan found, a row whose action reports the
    backup means that the file at the backup path holds the bytes the
    original held before: the backup path of a scanned file never names
    the file itself, however the two paths are spelled (files being the
    normalised absolute paths, from whichever directory [dir] relative
    paths are opened). *)
Theorem scanned_file_backup_holds_original (fs : gmap string bytes)
    (do_convert : bool) (root : string) (backup_dir : option string)
    (analyze_exn : option string) (io : conv_faults) (fp : string) :
  In fp (files_of root) ->
  row_action (process fs do_convert root backup_dir analyze_exn io fp).1
    = Some ("backed up to " +:+ backup_of root backup_dir fp
            +:+ " and converted to UTF-8") ->
  exists data,
    fs !! file_of fp = Some data
    /\ (process fs do_convert root backup_dir analyze_exn io fp).2
         !! file_of (backup_of root backup_dir fp) = Some data.
Proof.
  intros Hjava%iter_java_files_java. cbn beta.
  apply process_file_backup. by apply java_file_not_its_backup.
Qed.

End ScannedBackup.

(** ** The further properties on the sample worlds *)

Lemma ascii_file_is_unchanged_witness :
  (backup_and_convert_to_utf8 (os_path := Sample.posix) (names := Sample.names)
     Sample.jisx0208 Sample.cp932ext Sample.no_other_codec
     Sample.encode_error_text (Sample.ascii_file "A.java") Sample.no_faults
     "A.java" None None "shift_jis").1.1 = true
  /\ (backup_and_convert_to_utf8 (os_path := Sample.posix) (names := Sample.names)
        Sample.jisx0208 Sample.cp932ext Sample.no_other_codec
        Sample.encode_error_text (Sample.ascii_file "A.java") Sample.no_faults
        "A.java" None None "shift_jis").2 !! "/w/A.java"
     = Some [Byte.x69; Byte.x6e; Byte.x74]
  /\ (backup_and_convert_to_utf8 (os_path := Sample.posix) (names := Sample.names)
        Sample.jisx0208 Sample.cp932ext Sample.no_other_codec
        Sample.encode_error_text (Sample.ascii_file "A.java") Sample.no_faults
        "A.java" None None "shift_jis").2 !! "/w/A.java.jis"
     = Some [Byte.x69; Byte.x6e; Byte.x74].
Proof.
  apply (@ascii_file_is_unchanged Sample.posix Sample.names Sample.jisx0208
           Sample.cp932ext Sample.no_other_codec Sample.encode_error_text
           (Sample.ascii_file "A.java") Sample.no_faults "A.java" None None
           "shift_jis" [Byte.x69; Byte.x6e; Byte.x74]).
  - vm_compute. reflexivity.
  - repeat constructor.
  - by left.
  - reflexivity.
  - reflexivity.
  - reflexivity.
Defined.

Lemma convert_touches_two_files_witness :
  (backup_and_convert_to_utf8 (os_path := Sample.posix) (names := Sample.names)
     Sample.jisx0208 Sample.cp932ext Sample.no_other_codec
     Sample.encode_error_text Sample.tree Sample.no_faults
     "src/A.java" (Some "src") (Some "bk") "shift_jis").2
    !! "/w/src/notes.txt"
  = Sample.tree !! "/w/src/notes.txt".
Proof.
  apply (@convert_touches_two_files Sample.posix Sample.names Sample.jisx0208
           Sample.cp932ext Sample.no_other_codec Sample.encode_error_text
           Sample.tree Sample.no_faults "src/A.java" (Some "src") (Some "bk")
           "shift_jis" "/w/src/notes.txt").
  - vm_compute. discriminate.
  - vm_compute. discriminate.
Defined.

Lemma written_backup_survives_witness :
  (backup_and_convert_to_utf8 (os_path := Sample.posix) (names := Sample.names)
     Sample.jisx0208 Sample.cp932ext Sample.no_other_codec
     Sample.encode_error_text (Sample.one_file "A.java")
     Sample.original_read_only "A.java" None None "shift_jis").1.1 = false
  /\ (backup_and_convert_to_utf8 (os_path := Sample.posix) (names := Sample.names)
        Sample.jisx0208 Sample.cp932ext Sample.no_other_codec
        Sample.encode_error_text (Sample.one_file "A.java")
        Sample.original_read_only "A.java" None None "shift_jis").2
     !! "/w/A.java.jis" = Some [Byte.xb1].
Proof.
  split; [vm_compute; reflexivity|].
  apply (@written_backup_survives Sample.posix Sample.names Sample.jisx0208
           Sample.cp932ext Sample.no_other_codec Sample.encode_error_text
           (Sample.one_file "A.java") Sample.original_read_only "A.java"
           None None "shift_jis" [Byte.xb1]).
  - vm_compute. reflexivity.
  - reflexivity.
  - vm_compute. reflexivity.
  - vm_compute. discriminate.
Defined.

Lemma success_writes_utf8_of_text_witness :
  exists data t out,
    Sample.one_file "A.java" !! "/w/A.java" = Some data
    /\ (decode_loop Sample.jisx0208 Sample.cp932ext Sample.no_other_codec
          ["shift_jis"; "cp932"; "shift_jis"] [] data).1 = Some t
    /\ utf8_encode t = Some out
    /\ (backup_and_convert_to_utf8 (os_path := Sample.posix) (names := Sample.names)
          Sample.jisx0208 Sample.cp932ext Sample.no_other_codec
          Sample.encode_error_text (Sample.one_file "A.java")
          Sample.no_faults "A.java" None None "shift_jis").2 !! "/w/A.java"
       = Some out.
Proof.
  set (r := backup_and_convert_to_utf8 (os_path := Sample.posix) (names := Sample.names)
              Sample.jisx0208 Sample.cp932ext Sample.no_other_codec
              Sample.encode_error_text (Sample.one_file "A.java")
              Sample.no_faults "A.java" None None "shift_jis").
  apply (@success_writes_utf8_of_text Sample.posix Sample.names Sample.jisx0208
           Sample.cp932ext Sample.no_other_codec Sample.encode_error_text
           (Sample.one_file "A.java") r.2 Sample.no_faults "A.java" None None
           "shift_jis" "backed up to A.java.jis and converted to UTF-8").
  vm_compute. reflexivity.
Defined.

Lemma second_run_replaces_backup_witness :
  exists data t out,
    Sample.one_file "A.java" !! "/w/A.java" = Some data
    /\ (decode_loop Sample.jisx0208 Sample.cp932ext Sample.no_other_codec
          ["shift_jis"; "cp932"; "shift_jis"] [] data).1 = Some t
    /\ utf8_encode t = Some out
    /\ (backup_and_convert_to_utf8 (os_path := Sample.posix) (names := Sample.names)
          Sample.jisx0208 Sample.cp932ext Sample.no_other_codec
          Sample.encode_error_text
          (backup_and_convert_to_utf8 (os_path := Sample.posix) (names := Sample.names)
             Sample.jisx0208 Sample.cp932ext Sample.no_other_codec
             Sample.encode_error_text (Sample.one_file "A.java")
             Sample.no_faults "A.java" None None "shift_jis").2
          Sample.no_faults "A.java" None None "shift_jis").2
       !! "/w/A.java.jis" = Some out.
Proof.
  set (r1 := backup_and_convert_to_utf8 (os_path := Sample.posix) (names := Sample.names)
               Sample.jisx0208 Sample.cp932ext Sample.no_other_codec
               Sample.encode_error_text (Sample.one_file "A.java")
               Sample.no_faults "A.java" None None "shift_jis").
  set (r2 := backup_and_convert_to_utf8 (os_path := Sample.posix) (names := Sample.names)
               Sample.jisx0208 Sample.cp932ext Sample.no_other_codec
               Sample.encode_error_text r1.2
               Sample.no_faults "A.java" None None "shift_jis").
  apply (@second_run_replaces_backup Sample.posix Sample.names Sample.jisx0208
           Sample.cp932ext Sample.no_other_codec Sample.encode_error_text
           (Sample.one_file "A.java") r1.2 r2.2 Sample.no_faults Sample.no_faults
           "A.java" None None "shift_jis" "shift_jis"
           "backed up to A.java.jis and converted to UTF-8"
           "backed up to A.java.jis and converted to UTF-8").
  - vm_compute. discriminate.
  - vm_compute. reflexivity.
  - vm_compute. reflexivity.
Defined.


Lemma main_touches_scanned_files_only_witness :
  (main (os_path := Sample.posix) (names := Sample.names) Sample.jisx0208 Sample.cp932ext
     Sample.no_other_codec Sample.encode_error_text None Sample.walk
     Sample.any_path_exists Sample.tree Sample.quiet
     {| arg_path := "src"; arg_convert := true; arg_backup_dir := None |}).2
    !! "/w/src/notes.txt"
  = Sample.tree !! "/w/src/notes.txt".
Proof.
  apply (main_touches_scanned_files_only (names := Sample.names) (Some "/w") Sample.jisx0208
           Sample.cp932ext Sample.no_other_codec Sample.encode_error_text
           None Sample.walk Sample.any_path_exists Sample.tree Sample.quiet
           {| arg_path := "src"; arg_convert := true;
              arg_backup_dir := None |} "/w/src/notes.txt").
  intros fp Hin. vm_compute in Hin.
  destruct Hin as [<-|[<-|[]]]; split; vm_compute; discriminate.
Defined.

Lemma scanned_file_backup_holds_original_witness :
  exists data,
    Sample.tree !! "/w/src/A.java" = Some data
    /\ (process_file (os_path := Sample.posix) (names := Sample.names) Sample.jisx0208
          Sample.cp932ext Sample.no_other_codec Sample.encode_error_text None
          Sample.tree true "src" None None Sample.no_faults "src/A.java").2
       !! "/w/src/A.java.jis" = Some data.
Proof.
  apply (scanned_file_backup_holds_original (Some "/w") "/w" Sample.jisx0208
           Sample.cp932ext Sample.no_other_codec Sample.encode_error_text
           None Sample.walk Sample.tree true "src" None None Sample.no_faults
           "src/A.java").
  - vm_compute. by left.
  - vm_compute. reflexivity.
Defined.

(** ** The encode step after a CJK decode *)

Ltac zbools :=
  repeat match goal with
         | H : (_ && _) = true |- _ => apply andb_true_iff in H as [? ?]
         | H : (_ && _) = false |- _ => apply andb_false_iff in H
         | H : (_ || _) = true |- _ => apply orb_true_iff in H
         | H : (_ || _) = false |- _ => apply orb_false_iff in H as [? ?]
         | H : (_ <? _) = true |- _ => apply Z.ltb_lt in H
         | H : (_ <? _) = false |- _ => apply Z.ltb_ge in H
         | H : (_ <=? _) = true |- _ => apply Z.leb_le in H
         | H : (_ <=? _) = false |- _ => apply Z.leb_gt in H
         | H : (_ =? _) = true |- _ => apply Z.eqb_eq in H
         | H : (_ =? _) = false |- _ => apply Z.eqb_neq in H
         end.

Lemma utf8_encode_char_scalar (u : Z) :
  scalar_value u -> is_Some (utf8_encode_char u).
Proof.
  intros [Hrange Hsur]. unfold utf8_encode_char.
  repeat case_match; zbools; try (by eexists); lia.
Qed.

Lemma utf8_encode_scalar (t : text) :
  Forall scalar_value t -> is_Some (utf8_encode t).
Proof.
  induction 1 as [|u t Hu _ [bs IH]]; [by eexists|].
  cbn [utf8_encode]. destruct (utf8_encode_char_scalar u Hu) as [b ->].
  rewrite IH. by eexists.
Qed.

Lemma byte_val_range' (b : byte) : 0 <= byte_val b < 256.
Proof.
  unfold byte_val. pose proof (Byte.to_N_bounded b) as Hb. lia.
Qed.

Lemma shift_jis_step_scalar (jisx0208 : Z -> Z -> option Z) :
  table_valid jisx0208 -> step_scalar (Codec.shift_jis_step jisx0208).
Proof.
  intros Htable c next u Hc. unfold Codec.shift_jis_step, Codec.is_lead.
  repeat case_match; intros [[=]|[=]]; subst;
    try (by eapply Htable); zbools; unfold scalar_value; lia.
Qed.

Lemma cp932_step_scalar (jisx0208 cp932ext : Z -> Z -> option Z) :
  table_valid jisx0208 -> table_valid cp932ext ->
  step_scalar (Codec.cp932_step jisx0208 cp932ext).
Proof.
  intros Hjis Hext c next u Hc. unfold Codec.cp932_step, Codec.is_lead.
  repeat case_match; intros [[=]|[=]]; subst;
    try (by eapply Hjis); try (by eapply Hext);
    zbools; unfold scalar_value; lia.
Qed.

Lemma replacement_character_scalar : scalar_value Codec.REPLACEMENT_CHARACTER.
Proof. unfold scalar_value, Codec.REPLACEMENT_CHARACTER. lia. Qed.

Lemma mbc_decode_scalar (step : Z -> option Z -> Codec.dec_step)
    (e : Codec.errors) (inp : bytes) (t : text) :
  step_scalar step ->
  Codec.mbc_decode step e inp = Some t -> Forall scalar_value t.
Proof.
  intros Hstep. revert t.
  enough ((forall t, Codec.mbc_decode step e inp = Some t ->
                     Forall scalar_value t)
          /\ forall b t, Codec.mbc_decode step e (b :: inp) = Some t ->
                         Forall scalar_value t)
    as [H _] by exact H.
  assert (Hfmap : forall u (o : option text) t,
             scalar_value u ->
             (forall t', o = Some t' -> Forall scalar_value t') ->
             cons u <$> o = Some t -> Forall scalar_value t).
  { intros u [t'|] t Hu Ho [= <-]. constructor; [done|by apply Ho]. }
  induction inp as [|a inp [IH0 IH1]].
  - split; [by intros t [= <-]|]. intros b t. cbn.
    destruct (step (byte_val b) None) eqn:Hs; try discriminate.
    + intros [= <-]. constructor; [|constructor].
      eapply Hstep; [apply byte_val_range'|by left].
    + destruct e; [discriminate|]. intros [= <-].
      constructor; [|constructor]. apply replacement_character_scalar.
    + destruct e; [discriminate|]. intros [= <-].
      constructor; [|constructor]. apply replacement_character_scalar.
  - split; [apply IH1|]. intros b t. rewrite mbc_decode_cons.
    destruct (step (byte_val b) _) eqn:Hs; cbv iota.
    + apply Hfmap; [|apply IH1].
      eapply Hstep; [apply byte_val_range'|by left].
    + apply Hfmap; [|apply IH0].
      eapply Hstep; [apply byte_val_range'|by right].
    + destruct e; [discriminate|].
      apply Hfmap; [apply replacement_character_scalar|apply IH1].
    + destruct e; [discriminate|]. intros [= <-].
      constructor; [|constructor]. apply replacement_character_scalar.
Qed.

Section EncodeAfterDecode.

Context {os_path : OsPath} {names : FileNames}.
Variable jisx0208 : Z -> Z -> option Z.
Variable cp932ext : Z -> Z -> option Z.
Variable other_decode : string -> Codec.errors -> bytes -> option text.
Variable encode_error_text : text -> string.

Local Abbreviation convert :=
  (backup_and_convert_to_utf8 jisx0208 cp932ext other_decode encode_error_text).
Local Abbreviation decode := (bytes_decode jisx0208 cp932ext other_decode).

(** With a CJK source encoding the text comes from that encoding. *)
Lemma decode_loop_cjk (src_encoding : string) (data : bytes) :
  src_encoding = "shift_jis" \/ src_encoding = "cp932" ->
  exists t m,
    (decode_loop jisx0208 cp932ext other_decode
       [src_encoding; "cp932"; "shift_jis"] [] data).1 = Some t
    /\ decode src_encoding m data = Some t.
Proof.
  intros Hsrc. cbn -[bytes_decode String.eqb].
  destruct (decode src_encoding Codec.Strict data) as [t|] eqn:Hs;
    [by exists t, Codec.Strict|].
  assert (Hr : is_Some (decode src_encoding Codec.Replace data)).
  { destruct Hsrc as [-> | ->];
      [apply decode_replace_shift_jis|apply decode_replace_cp932]. }
  destruct Hr as [t Hr]. rewrite Hr. by exists t, Codec.Replace.
Qed.

Lemma decode_cjk_scalar (enc : string) (m : Codec.errors) (data : bytes)
    (t : text) :
  table_valid jisx0208 -> table_valid cp932ext ->
  enc = "shift_jis" \/ enc = "cp932" ->
  decode enc m data = Some t -> Forall scalar_value t.
Proof.
  intros Hjis Hext [-> | ->]; apply mbc_decode_scalar.
  - by apply shift_jis_step_scalar.
  - by apply cp932_step_scalar.
Qed.

(** X14. With shift_jis or cp932 as the source encoding, and mapping
    tables that hold scalar values only, a conversion in which no I/O call
    fails succeeds for every content of the file: the decode stage yields a
    text and the text always encodes as UTF-8. *)
Theorem cjk_conversion_succeeds (fs : gmap string bytes) (io : conv_faults)
    (path : string) (root backup_root : option string)
    (src_encoding : string) (data : bytes) :
  table_valid jisx0208 -> table_valid cp932ext ->
  src_encoding = "shift_jis" \/ src_encoding = "cp932" ->
  FS.read fs (read_exn io) path = inr data ->
  makedirs io (backup_target path root backup_root).2 = None ->
  backup_outcome io = FS.WriteOk ->
  overwrite_outcome io = FS.WriteOk ->
  (convert fs io path root backup_root src_encoding).1
  = (true, "backed up to " +:+ (backup_target path root backup_root).1
           +:+ " and converted to UTF-8").
Proof.
  intros Hjis Hext Hsrc Hread Hmk Hb Ho.
  pose proof (backup_target_truthy path root backup_root) as Hbf.
  unfold backup_and_convert_to_utf8. rewrite Hread.
  destruct (backup_target path root backup_root) as [bf bd]. cbn [fst snd] in *.
  rewrite Hmk, Hb, (write_ok _ _ _ Hbf).
  destruct (decode_loop_cjk src_encoding data Hsrc) as (t & m & -> & Ht).
  destruct (utf8_encode_scalar t
              (decode_cjk_scalar _ _ _ _ Hjis Hext Hsrc Ht)) as [out ->].
  by rewrite Ho, (write_ok _ _ _ (read_inr_truthy _ _ _ _ Hread)).
Qed.

End EncodeAfterDecode.

Lemma sample_tables_valid :
  table_valid Sample.jisx0208 /\ table_valid Sample.cp932ext.
Proof.
  split; intros r k u; unfold Sample.jisx0208, Sample.cp932ext;
    case_match; intros [= <-]; unfold scalar_value; lia.
Qed.

Lemma cjk_conversion_succeeds_witness :
  (backup_and_convert_to_utf8 (os_path := Sample.posix) (names := Sample.names)
     Sample.jisx0208 Sample.cp932ext Sample.no_other_codec
     Sample.encode_error_text Sample.tree Sample.no_faults
     "src/pkg/B.JAVA" None None "shift_jis").1
  = (true, "backed up to src/pkg/B.JAVA.jis and converted to UTF-8").
Proof.
  apply (@cjk_conversion_succeeds Sample.posix Sample.names Sample.jisx0208
           Sample.cp932ext Sample.no_other_codec Sample.encode_error_text
           Sample.tree Sample.no_faults "src/pkg/B.JAVA" None None
           "shift_jis" [Byte.x87]).
  - apply sample_tables_valid.
  - apply sample_tables_valid.
  - by left.
  - vm_compute. reflexivity.
  - reflexivity.
  - reflexivity.
  - reflexivity.
Defined.

(** ** The label of a verdict *)

Section Label.

Context {names : FileNames}.
Variable jisx0208 : Z -> Z -> option Z.
Variable cp932ext : Z -> Z -> option Z.
Variable other_decode : string -> Codec.errors -> bytes -> option text.
Variable chardet : option (bytes -> detection).

Lemma detect_with_chardet_truthy (data : bytes) :
  PyStr.truthy (detect_with_chardet chardet data).1 = true.
Proof.
  unfold detect_with_chardet. destruct chardet as [detect|]; [|done].
  cbn [fst]. destruct (det_encoding (detect data)) as [enc|]; [|done].
  by destruct (PyStr.truthy enc) eqn:Henc.
Qed.

(** X15. The verdict of [analyze_file] carries the path it was given and a
    label that is never empty; with chardet, the label is Shift_JIS, the
    heuristic label or the label chardet reported (unknown where chardet
    reported none), and the confidence is the one of chardet in each
    case. *)
Theorem analyze_file_verdict_shape (fs : gmap string bytes)
    (exn : option string) (path : string) :
  (analyze_file jisx0208 cp932ext other_decode chardet fs exn path).1.1 = path
  /\ (analyze_file jisx0208 cp932ext other_decode chardet fs exn path).1.2
     <> ""
  /\ forall detect data,
       chardet = Some detect ->
       FS.read fs exn path = inr data ->
       (analyze_file jisx0208 cp932ext other_decode chardet fs exn path).2
         = (detect_with_chardet chardet data).2
       /\ ((analyze_file jisx0208 cp932ext other_decode chardet fs exn path).1.2
             = "Shift_JIS"
           \/ (analyze_file jisx0208 cp932ext other_decode chardet fs exn
                 path).1.2 = "Shift_JIS(heuristic)"
           \/ (analyze_file jisx0208 cp932ext other_decode chardet fs exn
                 path).1.2 = (detect_with_chardet chardet data).1).
Proof.
  split; [apply analyze_file_path|]. split.
  - unfold analyze_file. destruct (FS.read fs exn path) as [e|data];
      [discriminate|].
    destruct chardet as [detect|] eqn:Hc.
    + pose proof (detect_with_chardet_truthy data) as Ht. rewrite Hc in Ht.
      destruct (detect_with_chardet (Some detect) data) as [enc conf].
      cbn [fst] in Ht. rewrite Ht.
      repeat case_match; cbn [fst snd]; try discriminate;
        intros ->; discriminate Ht.
    + by destruct (detect_shift_jis_bytes _ _ _ data).
  - intros detect data Hc Hread. unfold analyze_file. rewrite Hread.
    pose proof (detect_with_chardet_truthy data) as Ht. rewrite Hc in *.
    destruct (detect_with_chardet (Some detect) data) as [enc conf].
    cbn [fst snd] in *. rewrite Ht.
    repeat case_match; cbn [fst snd]; auto.
Qed.

End Label.
